(** * ariabot: provider abstraction and conversation assembly

    A shallow embedding of the core of the portable chatbot
    ([config_manager.py], [ai_providers.py], [chatbot.py],
    [telegram_bot.py]) together with the properties its specification
    states about it.

    Modelling conventions.
    - A Python [str] is a [string], one [ascii] per character; the case
      mappings [lower] and [upper] act on the letters a-z / A-Z.
    - A value read from the JSON configuration (and hence anything that
      flows out of [Config.get]) is a [PyObject]; a JSON object is a finite
      map from strings to values.
    - A message is the dict [{"role": r, "content": c}], a record here.
    - Code that may raise returns a [Result]; a caught exception is a
      [Raise e] that is matched on.
    - Everything the program obtains from outside the repository (the
      process environment, installed packages, the builtins [float] and
      [int], the vendor SDK calls, the terminal) is an explicit argument
      or an explicit event. *)

From Stdlib Require Import ZArith String Ascii List Bool.
From Stdlib Require Import Floats.SpecFloat.
From stdpp Require Import gmap strings list fin_maps.

Open Scope string_scope.
Open Scope list_scope.

(** ** Python strings *)

Definition is_upper (c : ascii) : bool :=
  let n := N_of_ascii c in ((65 <=? n) && (n <=? 90))%N.

Definition is_lower (c : ascii) : bool :=
  let n := N_of_ascii c in ((97 <=? n) && (n <=? 122))%N.

Definition ascii_lower (c : ascii) : ascii :=
  if is_upper c then ascii_of_N (N_of_ascii c + 32) else c.

Definition ascii_upper (c : ascii) : ascii :=
  if is_lower c then ascii_of_N (N_of_ascii c - 32) else c.

Fixpoint string_map (f : ascii -> ascii) (s : string) : string :=
  match s with
  | EmptyString => EmptyString
  | String c s' => String (f c) (string_map f s')
  end.

(** [s.lower()] and [s.upper()]. *)
Definition lower (s : string) : string := string_map ascii_lower s.
Definition upper (s : string) : string := string_map ascii_upper s.

(** [s.split(sep)] for a one-character separator: never the empty list,
    an empty segment between two adjacent separators. *)
Fixpoint split (sep : ascii) (s : string) : list string :=
  match s with
  | EmptyString => [EmptyString]
  | String c s' =>
      if Ascii.eqb c sep then EmptyString :: split sep s'
      else match split sep s' with
           | seg :: segs => String c seg :: segs
           | [] => [String c EmptyString]
           end
  end.

(** [sep.join(parts)]. *)
Fixpoint join (sep : string) (parts : list string) : string :=
  match parts with
  | [] => ""
  | [p] => p
  | p :: ps => p +:+ sep +:+ join sep ps
  end.

(** ** Python values and exceptions *)

#[warnings="-register-all"]
Inductive PyObject : Type :=
| JNull
| JBool (b : bool)
| JInt (z : Z)
| JFloat (f : spec_float)
| JStr (s : string)
| JArr (l : list PyObject)
| JObj (d : gmap string PyObject).

(** Truth value of an object in a condition ([if x:], [not x]). *)
Definition truthy (v : PyObject) : bool :=
  match v with
  | JNull => false
  | JBool b => b
  | JInt z => negb (z =? 0)%Z
  | JFloat (S754_zero _) => false
  | JFloat _ => true
  | JStr s => negb (String.eqb s "")
  | JArr l => negb (Nat.eqb (length l) 0)
  | JObj d => negb (Nat.eqb (size d) 0)
  end.

Inductive ExcType : Type :=
| PlainException
| ValueError
| AttributeError
| TypeError
| IndexError
| ImportError.

Record PyExc : Type := { exc_type : ExcType; exc_msg : string }.

Inductive Result (A : Type) : Type :=
| Ok (a : A)
| Raise (e : PyExc).
Arguments Ok {A} a.
Arguments Raise {A} e.

Definition bind {A B} (r : Result A) (k : A -> Result B) : Result B :=
  match r with
  | Ok a => k a
  | Raise e => Raise e
  end.

Notation "'let*' x ':=' r 'in' k" := (bind r (fun x => k))
  (at level 10, x name, r at level 100, k at level 200).

(** What the interpreter and the process supply: the environment
    variables ([os.getenv]), which third-party packages can be imported,
    and the conversions [float(x)] and [int(x)]. *)
Record Runtime : Type := {
  environ : gmap string string;
  importable : string -> bool;
  py_float : PyObject -> Result PyObject;
  py_int : PyObject -> Result PyObject
}.

(** [os.getenv(name, '')]. *)
Definition getenv (rt : Runtime) (name : string) : string :=
  default "" (environ rt !! name).

(** ** config_manager.py *)

Module Config.

Record t : Type := { config_path : string; config : PyObject }.

(** The [for k in keys] loop of [get], with its early [return default]. *)
Fixpoint get_loop (keys : list string) (value default : PyObject) : PyObject :=
  match keys with
  | [] => value
  | k :: keys' =>
      match value with
      | JObj d =>
          match d !! k with
          | Some v => get_loop keys' v default
          | None => default
          end
      | _ => default
      end
  end.

Definition get (self : t) (key : string) (default : PyObject) : PyObject :=
  let keys := split "." key in
  get_loop keys (config self) default.

Definition bot_name (self : t) : PyObject :=
  get self "bot_name" (JStr "Assistant").

Definition bot_instructions (self : t) : PyObject :=
  get self "bot_instructions" (JStr "You are a helpful assistant.").

Definition api_provider (self : t) : PyObject :=
  get self "api_provider" (JStr "openai").

Definition model (self : t) : PyObject :=
  get self "model" (JStr "gpt-3.5-turbo").

(** [x.upper()] on whatever [api_provider] returned: only a [str] has
    the method. *)
Definition str_upper (v : PyObject) : Result string :=
  match v with
  | JStr s => Ok (upper s)
  | _ => Raise {| exc_type := AttributeError;
                  exc_msg := "object has no attribute 'upper'" |}
  end.

(** The [for env_name in env_names] loop of [api_key]: [key] is
    overwritten by every probe and the loop stops at the first
    non-empty one. *)
Fixpoint probe_env (rt : Runtime) (env_names : list string) (key : PyObject)
  : PyObject :=
  match env_names with
  | [] => key
  | env_name :: rest =>
      let key := JStr (getenv rt env_name) in
      if truthy key then key else probe_env rt rest key
  end.

Definition api_key (rt : Runtime) (self : t) : Result PyObject :=
  let key := get self "api_key" (JStr "") in
  if negb (truthy key) then
    let* provider := str_upper (api_provider self) in
    let env_names :=
      [ provider +:+ "_API_KEY"; provider +:+ "API_KEY"; "API_KEY" ] in
    Ok (probe_env rt env_names key)
  else Ok key.

Definition temperature (rt : Runtime) (self : t) : Result PyObject :=
  py_float rt (get self "temperature" (JFloat (S754_finite false 6305039478318694 (-53)))).

Definition max_tokens (rt : Runtime) (self : t) : Result PyObject :=
  py_int rt (get self "max_tokens" (JInt 150)).

End Config.

(** ** ai_providers.py *)

(** One turn of a conversation: the dict [{"role": ..., "content": ...}]. *)
Record Message : Type := { role : string; content : PyObject }.

(** [xs[0]] on a list. *)
Definition first_item {A} (xs : list A) : Result A :=
  match xs with
  | x :: _ => Ok x
  | [] => Raise {| exc_type := IndexError; exc_msg := "list index out of range" |}
  end.

(** [raise Exception(f"<prefix>{e}")] in an [except Exception as e]
    handler around [body]. *)
Definition reraise {A} (prefix : string) (body : Result A) : Result A :=
  match body with
  | Ok a => Ok a
  | Raise e =>
      Raise {| exc_type := PlainException; exc_msg := prefix +:+ exc_msg e |}
  end.

Module AIProvider.

(** The attributes bound by [AIProvider.__init__]. *)
Record t : Type := {
  config : Config.t;
  api_key : PyObject;
  model : PyObject;
  temperature : PyObject;
  max_tokens : PyObject
}.

Definition __init__ (rt : Runtime) (config : Config.t) : Result t :=
  let* api_key := Config.api_key rt config in
  let model := Config.model config in
  let* temperature := Config.temperature rt config in
  let* max_tokens := Config.max_tokens rt config in
  Ok {| config := config; api_key := api_key; model := model;
        temperature := temperature; max_tokens := max_tokens |}.

End AIProvider.

(** Keyword arguments of [client.chat.completions.create], the call both
    the OpenAI and the Groq SDK expose, and the reply reduced to the
    [message.content] of each of its [choices]. *)
Record CompletionsCreate : Type := {
  cc_model : PyObject;
  cc_messages : list Message;
  cc_temperature : PyObject;
  cc_max_tokens : PyObject
}.

Record ChatCompletion : Type := { choices : list PyObject }.

(** A constructed provider: which of the five classes it is an instance
    of, with the attributes the class adds to the inherited ones. *)
Inductive Provider : Type :=
| OpenAI (self : AIProvider.t)
| Anthropic (self : AIProvider.t)
| Cohere (self : AIProvider.t)
| Ollama (self : AIProvider.t) (base_url : PyObject)
| Groq (self : AIProvider.t).

(** The [try: import pkg ... except ImportError: raise ImportError(msg)]
    of the constructors; building the SDK client from an importable
    package is taken to succeed. *)
Definition import_sdk (rt : Runtime) (pkg msg : string) (p : Provider)
  : Result Provider :=
  if importable rt pkg then Ok p
  else Raise {| exc_type := ImportError; exc_msg := msg |}.

Module OpenAIProvider.

Definition __init__ (rt : Runtime) (config : Config.t) : Result Provider :=
  let* self := AIProvider.__init__ rt config in
  import_sdk rt "openai"
    "OpenAI package not installed. Run: pip install openai" (OpenAI self).

(** The keyword arguments [chat] passes to the SDK call. *)
Definition request (self : AIProvider.t) (messages : list Message)
  : CompletionsCreate :=
  {| cc_model := AIProvider.model self;
     cc_messages := messages;
     cc_temperature := AIProvider.temperature self;
     cc_max_tokens := AIProvider.max_tokens self |}.

(** [create] stands for [self.client.chat.completions.create]. *)
Definition chat (create : CompletionsCreate -> Result ChatCompletion)
    (self : AIProvider.t) (messages : list Message) : Result PyObject :=
  reraise "OpenAI API error: "
    (let* response := create (request self messages) in
     first_item (choices response)).

End OpenAIProvider.

Module AnthropicProvider.

Definition __init__ (rt : Runtime) (config : Config.t) : Result Provider :=
  let* self := AIProvider.__init__ rt config in
  import_sdk rt "anthropic"
    "Anthropic package not installed. Run: pip install anthropic"
    (Anthropic self).

(** Keyword arguments of [client.messages.create]; the reply reduced to
    the [text] of each of its [content] blocks. *)
Record MessagesCreate : Type := {
  model : PyObject;
  system : PyObject;
  messages : list Message;
  temperature : PyObject;
  max_tokens : PyObject
}.

Record Reply : Type := { content_texts : list PyObject }.

(** The [for msg in messages] loop, on the two variables it updates. *)
Fixpoint convert (msgs : list Message)
    (system_message : PyObject) (user_messages : list Message)
  : PyObject * list Message :=
  match msgs with
  | [] => (system_message, user_messages)
  | msg :: rest =>
      if String.eqb (role msg) "system"
      then convert rest (content msg) user_messages
      else convert rest system_message (user_messages ++ [msg])
  end.

(** The conversion and the keyword arguments [chat] passes to the SDK
    call. *)
Definition request (self : AIProvider.t) (msgs : list Message)
  : MessagesCreate :=
  let '(system_message, user_messages) := convert msgs (JStr "") [] in
  {| model := AIProvider.model self;
     system := system_message;
     messages := user_messages;
     temperature := AIProvider.temperature self;
     max_tokens := AIProvider.max_tokens self |}.

(** [create] stands for [self.client.messages.create]. *)
Definition chat (create : MessagesCreate -> Result Reply)
    (self : AIProvider.t) (msgs : list Message) : Result PyObject :=
  reraise "Anthropic API error: "
    (let* response := create (request self msgs) in
     first_item (content_texts response)).

End AnthropicProvider.

Module CohereProvider.

Definition __init__ (rt : Runtime) (config : Config.t) : Result Provider :=
  let* self := AIProvider.__init__ rt config in
  import_sdk rt "cohere"
    "Cohere package not installed. Run: pip install cohere" (Cohere self).

(** An entry of [chat_history]: [{"role": ..., "message": ...}]. *)
Record Turn : Type := { turn_role : string; turn_message : PyObject }.

(** Keyword arguments of [client.chat]; the reply reduced to its [text]. *)
Record Chat : Type := {
  model : PyObject;
  message : PyObject;
  chat_history : list Turn;
  temperature : PyObject;
  max_tokens : PyObject
}.

Record Reply : Type := { text : PyObject }.

(** The [for msg in messages] loop, on the two variables it updates. *)
Fixpoint convert (msgs : list Message)
    (chat_history : list Turn) (message_text : PyObject)
  : list Turn * PyObject :=
  match msgs with
  | [] => (chat_history, message_text)
  | msg :: rest =>
      if String.eqb (role msg) "system" then
        convert rest chat_history message_text
      else if String.eqb (role msg) "user" then
        convert rest chat_history (content msg)
      else if String.eqb (role msg) "assistant" then
        convert rest
          (chat_history ++
             [{| turn_role := "CHATBOT"; turn_message := content msg |}])
          message_text
      else convert rest chat_history message_text
  end.

(** The conversion and the keyword arguments [chat] passes to the SDK
    call. *)
Definition request (self : AIProvider.t) (msgs : list Message) : Chat :=
  let '(chat_history, message_text) := convert msgs [] (JStr "") in
  {| model := AIProvider.model self;
     message := message_text;
     chat_history := chat_history;
     temperature := AIProvider.temperature self;
     max_tokens := AIProvider.max_tokens self |}.

(** [client_chat] stands for [self.client.chat]. *)
Definition chat (client_chat : Chat -> Result Reply)
    (self : AIProvider.t) (msgs : list Message) : Result PyObject :=
  reraise "Cohere API error: "
    (let* response := client_chat (request self msgs) in
     Ok (text response)).

End CohereProvider.

Module OllamaProvider.

Definition __init__ (rt : Runtime) (config : Config.t) : Result Provider :=
  let* self := AIProvider.__init__ rt config in
  Ok (Ollama self
        (Config.get config "ollama_url" (JStr "http://localhost:11434"))).

End OllamaProvider.

Module GroqProvider.

Definition __init__ (rt : Runtime) (config : Config.t) : Result Provider :=
  let* self := AIProvider.__init__ rt config in
  import_sdk rt "groq"
    "Groq package not installed. Run: pip install groq" (Groq self).

(** The keyword arguments [chat] passes to the SDK call. *)
Definition request (self : AIProvider.t) (messages : list Message)
  : CompletionsCreate :=
  {| cc_model := AIProvider.model self;
     cc_messages := messages;
     cc_temperature := AIProvider.temperature self;
     cc_max_tokens := AIProvider.max_tokens self |}.

(** [create] stands for [self.client.chat.completions.create]. *)
Definition chat (create : CompletionsCreate -> Result ChatCompletion)
    (self : AIProvider.t) (messages : list Message) : Result PyObject :=
  reraise "Groq API error: "
    (let* response := create (request self messages) in
     first_item (choices response)).

End GroqProvider.

Module ProviderFactory.

(** The class attribute [PROVIDERS]: a dict literal, kept in its
    insertion order because [keys()] is joined into a message. *)
Definition PROVIDERS : list (string * (Runtime -> Config.t -> Result Provider)) :=
  [ ("openai", OpenAIProvider.__init__);
    ("anthropic", AnthropicProvider.__init__);
    ("cohere", CohereProvider.__init__);
    ("ollama", OllamaProvider.__init__);
    ("groq", GroqProvider.__init__) ].

(** [d.keys()] and [d[k]] / [k in d] on such a dict. *)
Definition keys {V} (d : list (string * V)) : list string := map fst d.

Fixpoint dict_get {V} (d : list (string * V)) (k : string) : option V :=
  match d with
  | [] => None
  | (k', v) :: d' => if String.eqb k' k then Some v else dict_get d' k
  end.

(** [x.lower()] on whatever [api_provider] returned. *)
Definition str_lower (v : PyObject) : Result string :=
  match v with
  | JStr s => Ok (lower s)
  | _ => Raise {| exc_type := AttributeError;
                  exc_msg := "object has no attribute 'lower'" |}
  end.

Definition create_provider (rt : Runtime) (config : Config.t)
  : Result Provider :=
  let* provider_name := str_lower (Config.api_provider config) in
  match dict_get PROVIDERS provider_name with
  | None =>
      let available := join ", " (keys PROVIDERS) in
      Raise {| exc_type := ValueError;
               exc_msg := "Unknown provider '" +:+ provider_name +:+
                          "'. Available: " +:+ available |}
  | Some provider_class => provider_class rt config
  end.

Definition get_available_providers : list string := keys PROVIDERS.

End ProviderFactory.

(** ** chatbot.py *)

(** [len(x)]. *)
Definition py_len (v : PyObject) : Result nat :=
  match v with
  | JStr s => Ok (String.length s)
  | JArr l => Ok (length l)
  | JObj d => Ok (size d)
  | _ => Raise {| exc_type := TypeError; exc_msg := "object has no len()" |}
  end.

Module ChatBot.

(** The object's mutable state. The provider is not stored: each call
    of [self.provider.chat] is answered by a function passed to the
    method that makes it, since the same provider may answer the same
    request differently at different times. *)
Record t : Type := {
  config : Config.t;
  conversation_history : list Message
}.

(** What a method writes to the terminal, and its calls of the provider. *)
Inductive Line : Type :=
| Thinking
| EraseThinking
| Reply (bot_name response : PyObject)
| TokenEstimate (tokens : nat)
| Error (e : PyExc)
| TryAgain
| HistoryCleared.

Inductive Event : Type :=
| Printed (l : Line)
| ProviderChat (messages : list Message).

(** The state [__init__] leaves once the configuration is loaded and
    [setup_provider] has succeeded: the history is empty. *)
Definition __init__ (config : Config.t) : t :=
  {| config := config; conversation_history := [] |}.

Definition set_history (self : t) (h : list Message) : t :=
  {| config := config self; conversation_history := h |}.

Definition clear_history (self : t) : t * list Event :=
  (set_history self [], [Printed HistoryCleared]).

Definition get_messages_for_api (self : t) : list Message :=
  let messages := [] in
  let messages :=
    if truthy (Config.bot_instructions (config self))
    then messages ++ [{| role := "system";
                         content := Config.bot_instructions (config self) |}]
    else messages in
  messages ++ conversation_history self.

(** [sum(len(msg['content']) for msg in messages)]. *)
Fixpoint total_len (messages : list Message) : Result nat :=
  match messages with
  | [] => Ok 0
  | msg :: rest =>
      let* n := py_len (content msg) in
      let* m := total_len rest in
      Ok (n + m)
  end.

(** The [except Exception as e] handler of [process_chat_message]. *)
Definition on_exception (self : t) (trace : list Event) (e : PyExc)
  : t * list Event * bool :=
  (self, trace ++ [Printed (Error e); Printed TryAgain], true).

Definition process_chat_message
    (provider_chat : list Message -> Result PyObject)
    (self : t) (user_input : string) : t * list Event * bool :=
  let self :=
    set_history self
      (conversation_history self ++
         [{| role := "user"; content := JStr user_input |}]) in
  let messages := get_messages_for_api self in
  let trace := [Printed Thinking; ProviderChat messages] in
  match provider_chat messages with
  | Raise e => on_exception self trace e
  | Ok response =>
      let trace := trace ++ [Printed EraseThinking] in
      let self :=
        set_history self
          (conversation_history self ++
             [{| role := "assistant"; content := response |}]) in
      let trace :=
        trace ++ [Printed (Reply (Config.bot_name (config self)) response)] in
      if truthy (Config.get (config self) "settings.show_token_usage"
                   (JBool false))
      then
        match total_len messages with
        | Raise e => on_exception self trace e
        | Ok total_chars =>
            (self, trace ++ [Printed (TokenEstimate (total_chars / 4))], true)
        end
      else (self, trace, true)
  end.

End ChatBot.

(** ** telegram_bot.py *)

Module TelegramChatBot.

(** What the handlers send back with [reply_text]. *)
Inductive Sent : Type :=
| Welcome
| HistoryCleared
| Answer (response : PyObject)
| Apology.

(** [/start]: the module-level dict [user_conversations] gets an entry
    for a new user. *)
Definition start_command (user_conversations : gmap Z (list Message))
    (user_id : Z) : gmap Z (list Message) * list Sent :=
  let user_conversations :=
    match user_conversations !! user_id with
    | None => <[user_id := []]> user_conversations
    | Some _ => user_conversations
    end in
  (user_conversations, [Welcome]).

Definition clear_command (user_conversations : gmap Z (list Message))
    (user_id : Z) : gmap Z (list Message) * list Sent :=
  let user_conversations :=
    match user_conversations !! user_id with
    | Some _ => <[user_id := []]> user_conversations
    | None => user_conversations
    end in
  (user_conversations, [HistoryCleared]).

(** [user_conversations[user_id].append(msg)]. *)
Definition append (user_conversations : gmap Z (list Message))
    (user_id : Z) (msg : Message) : gmap Z (list Message) :=
  alter (fun h => h ++ [msg]) user_id user_conversations.

(** A text message. [send_action] is the outcome of the typing
    indicator, [reply_ok] whether sending the answer succeeds; both
    calls sit inside the [try]. *)
Definition handle_message (config : Config.t)
    (send_action : Result unit)
    (provider_chat : list Message -> Result PyObject)
    (reply_ok : bool)
    (user_conversations : gmap Z (list Message))
    (user_id : Z) (user_message : string)
  : gmap Z (list Message) * list Sent :=
  let user_conversations :=
    match user_conversations !! user_id with
    | None => <[user_id := []]> user_conversations
    | Some _ => user_conversations
    end in
  match send_action with
  | Raise _ => (user_conversations, [Apology])
  | Ok _ =>
      let user_conversations :=
        append user_conversations user_id
          {| role := "user"; content := JStr user_message |} in
      let messages := [] in
      let messages :=
        if truthy (Config.bot_instructions config)
        then messages ++ [{| role := "system";
                             content := Config.bot_instructions config |}]
        else messages in
      let messages :=
        messages ++ default [] (user_conversations !! user_id) in
      match provider_chat messages with
      | Raise _ => (user_conversations, [Apology])
      | Ok response =>
          let user_conversations :=
            append user_conversations user_id
              {| role := "assistant"; content := response |} in
          if reply_ok then (user_conversations, [Answer response])
          else (user_conversations, [Apology])
      end
  end.

End TelegramChatBot.

(** ** Vocabulary of the properties *)

(** [reaches v keys leaf]: following [keys] one mapping at a time from
    [v] succeeds at every segment and ends on [leaf]. *)
Inductive reaches : PyObject -> list string -> PyObject -> Prop :=
| reaches_here v : reaches v [] v
| reaches_down d k v keys leaf :
    d !! k = Some v -> reaches v keys leaf -> reaches (JObj d) (k :: keys) leaf.

(** The traversal cannot take segment [k] from [v]: [v] is not a mapping,
    or it has no entry [k]. *)
Definition blocked (v : PyObject) (k : string) : Prop :=
  match v with
  | JObj d => d !! k = None
  | _ => True
  end.

(** First non-empty string of a list, the empty string when there is none. *)
Definition first_nonempty (l : list string) : string :=
  hd "" (List.filter (fun s => negb (String.eqb s "")) l).

Definition has_role (r : string) (m : Message) : bool := String.eqb (role m) r.

(** An assistant message as an entry of Cohere's [chat_history]. *)
Definition chatbot_turn (m : Message) : CohereProvider.Turn :=
  {| CohereProvider.turn_role := "CHATBOT";
     CohereProvider.turn_message := content m |}.

Definition no_role (r : string) (l : list Message) : Prop :=
  Forall (fun m => has_role r m = false) l.

(** The operations of a terminal session that change the history: a
    chat turn, answered by the provider as [provider_chat] says, and the
    [clear] command. *)
Inductive Op : Type :=
| ChatTurn (provider_chat : list Message -> Result PyObject) (user_input : string)
| ClearHistory.

Definition step (self : ChatBot.t) (op : Op) : ChatBot.t :=
  match op with
  | ChatTurn provider_chat user_input =>
      fst (fst (ChatBot.process_chat_message provider_chat self user_input))
  | ClearHistory => fst (ChatBot.clear_history self)
  end.

Definition run (self : ChatBot.t) (ops : list Op) : ChatBot.t :=
  fold_left step ops self.

(** The updates the Telegram bridge dispatches to a handler that touches
    [user_conversations], with the outcomes of the handler's outside
    calls. *)
Inductive Update : Type :=
| StartCommand (user_id : Z)
| ClearCommand (user_id : Z)
| TextMessage (user_id : Z) (user_message : string)
    (send_action : Result unit)
    (provider_chat : list Message -> Result PyObject)
    (reply_ok : bool).

Definition deliver (config : Config.t)
    (user_conversations : gmap Z (list Message)) (u : Update)
  : gmap Z (list Message) :=
  match u with
  | StartCommand user_id =>
      fst (TelegramChatBot.start_command user_conversations user_id)
  | ClearCommand user_id =>
      fst (TelegramChatBot.clear_command user_conversations user_id)
  | TextMessage user_id user_message send_action provider_chat reply_ok =>
      fst (TelegramChatBot.handle_message config send_action provider_chat
             reply_ok user_conversations user_id user_message)
  end.

Definition deliver_all (config : Config.t) (updates : list Update)
  : gmap Z (list Message) :=
  fold_left (deliver config) updates ∅.

(** No stored history of the bridge holds a system message. *)
Definition clean (user_conversations : gmap Z (list Message)) : Prop :=
  map_Forall (fun _ h => no_role "system" h) user_conversations.

(** The provider calls recorded in a trace, and the errors it shows. *)
Definition provider_calls (trace : list ChatBot.Event) : list (list Message) :=
  flat_map (fun ev => match ev with
                      | ChatBot.ProviderChat messages => [messages]
                      | _ => []
                      end) trace.

Definition errors_shown (trace : list ChatBot.Event) : list PyExc :=
  flat_map (fun ev => match ev with
                      | ChatBot.Printed (ChatBot.Error e) => [e]
                      | _ => []
                      end) trace.

Definition replies_shown (trace : list ChatBot.Event) : list PyObject :=
  flat_map (fun ev => match ev with
                      | ChatBot.Printed (ChatBot.Reply _ response) => [response]
                      | _ => []
                      end) trace.

Definition user_message (text : string) : Message :=
  {| role := "user"; content := JStr text |}.

Definition assistant_message (response : PyObject) : Message :=
  {| role := "assistant"; content := response |}.

(** The message [get_messages_for_api] builds from the instruction. *)
Definition system_message (config : Config.t) : Message :=
  {| role := "system"; content := Config.bot_instructions config |}.

(** ** Sample inputs *)

Definition settings_config : Config.t :=
  {| Config.config_path := "config.json";
     Config.config :=
       JObj {[ "settings" := JObj {[ "save_conversation" := JBool false ]} ]} |}.

Definition empty_config : Config.t :=
  {| Config.config_path := "config.json"; Config.config := JObj ∅ |}.

(** A configuration for the Groq provider whose [api_key] is empty. *)
Definition groq_config : Config.t :=
  {| Config.config_path := "config.json";
     Config.config :=
       JObj (<[ "bot_name" := JStr "Aria" ]>
            (<[ "bot_instructions" := JStr "Be brief." ]>
            (<[ "api_provider" := JStr "groq" ]>
            (<[ "model" := JStr "llama-3.1-8b-instant" ]>
            (<[ "api_key" := JStr "" ]> ∅))))) |}.

(** A process whose only environment variable is [GROQ_API_KEY=xyz]. *)
Definition groq_runtime : Runtime :=
  {| environ := {[ "GROQ_API_KEY" := "xyz" ]};
     importable := fun _ => true;
     py_float := fun v => Ok v;
     py_int := fun v => Ok v |}.

(** The conversation [system:"S", user:"u1", assistant:"a1", user:"u2"]. *)
Definition sample_messages : list Message :=
  [ {| role := "system"; content := JStr "S" |};
    {| role := "user"; content := JStr "u1" |};
    {| role := "assistant"; content := JStr "a1" |};
    {| role := "user"; content := JStr "u2" |} ].

(** A conversation with two system messages, one of them in the middle. *)
Definition two_system_messages : list Message :=
  [ {| role := "system"; content := JStr "S1" |};
    {| role := "user"; content := JStr "u1" |};
    {| role := "system"; content := JStr "S2" |};
    {| role := "assistant"; content := JStr "a1" |} ].

Definition sample_provider : AIProvider.t :=
  {| AIProvider.config := groq_config;
     AIProvider.api_key := JStr "xyz";
     AIProvider.model := JStr "llama-3.1-8b-instant";
     AIProvider.temperature := JFloat (S754_finite false 6305039478318694 (-53));
     AIProvider.max_tokens := JInt 150 |}.

(** A configuration naming its provider in mixed case. *)
Definition mixed_case_config : Config.t :=
  {| Config.config_path := "config.json";
     Config.config := JObj {[ "api_provider" := JStr "GrOq" ]} |}.

(** A configuration naming a provider the registry does not have. *)
Definition unknown_provider_config : Config.t :=
  {| Config.config_path := "config.json";
     Config.config := JObj {[ "api_provider" := JStr "Gemini" ]} |}.

(** A provider that is down, and one that always answers [hello]. *)
Definition failing_provider (messages : list Message) : Result PyObject :=
  Raise {| exc_type := PlainException;
           exc_msg := "Groq API error: connection refused" |}.

Definition hello_provider (messages : list Message) : Result PyObject :=
  Ok (JStr "hello").

(** A session that has already exchanged one turn. *)
Definition one_turn_bot : ChatBot.t :=
  {| ChatBot.config := groq_config;
     ChatBot.conversation_history :=
       [ user_message "hi"; assistant_message (JStr "hello") ] |}.

(** A configuration whose instruction is the empty string, and a
    session over it. *)
Definition no_instruction_config : Config.t :=
  {| Config.config_path := "config.json";
     Config.config := JObj {[ "bot_instructions" := JStr "" ]} |}.

Definition no_instruction_bot : ChatBot.t :=
  {| ChatBot.config := no_instruction_config;
     ChatBot.conversation_history := [user_message "hi"] |}.

(** ** config_manager.py, continued *)

(** The two loops of [Config.set] in one recursion: [for k in keys[:-1]]
    descends, creating an empty dict for a missing segment, and
    [config[keys[-1]] = value] stores. A value that is not a dict stops
    it with a [TypeError], whichever of [k not in config], [config[k]]
    and [config[k] = ...] meets it first (the message text depends on
    the type and is not modelled). The method updates the dicts in
    place; the function returns the updated document, and an exception
    leaves the document as it was: a dict created on the way is empty, so
    nothing below it can fail (see [set_loop_fresh]). *)
Fixpoint set_loop (keys : list string) (config value : PyObject)
  : Result PyObject :=
  match keys with
  | [] => Raise {| exc_type := IndexError; exc_msg := "list index out of range" |}
  | k :: rest =>
      match config with
      | JObj d =>
          match rest with
          | [] => Ok (JObj (<[k := value]> d))
          | _ :: _ =>
              let child := default (JObj ∅) (d !! k) in
              let* child := set_loop rest child value in
              Ok (JObj (<[k := child]> d))
          end
      | _ => Raise {| exc_type := TypeError; exc_msg := "not a dict" |}
      end
  end.

(** [Config.set]. *)
Definition Config_set (self : Config.t) (key : string) (value : PyObject)
  : Result Config.t :=
  let keys := split "." key in
  let* config := set_loop keys (Config.config self) value in
  Ok {| Config.config_path := Config.config_path self;
        Config.config := config |}.

(** [sub in s] on strings. *)
Fixpoint contains (s sub : string) : bool :=
  String.prefix sub s ||
  match s with
  | EmptyString => false
  | String _ s' => contains s' sub
  end.

(** [field in config] for a string [field]: key membership on a dict,
    substring on a string, element equality on a list, [TypeError] on
    anything else. *)
Definition py_in (field : string) (config : PyObject) : Result bool :=
  match config with
  | JObj d => Ok (bool_decide (is_Some (d !! field)))
  | JStr s => Ok (contains s field)
  | JArr l =>
      Ok (existsb (fun v => match v with
                            | JStr s => String.eqb s field
                            | _ => false
                            end) l)
  | _ => Raise {| exc_type := TypeError; exc_msg := "argument is not iterable" |}
  end.

(** What [_load_config] finds at [config_path]: no file, a file
    [json.load] rejects with a [JSONDecodeError], or a parsed document. *)
Inductive ConfigFile : Type :=
| NoFile
| BadJson (err : string)
| Document (config : PyObject).

(** How loading ends when it does not return: [FileNotFoundError], or
    one of the other exceptions. *)
Inductive LoadError : Type :=
| FileNotFoundError (msg : string)
| LoadRaised (e : PyExc).

(** The [for field in required_fields] loop of [_load_config]. *)
Fixpoint check_required (required_fields : list string) (config : PyObject)
  : Result unit :=
  match required_fields with
  | [] => Ok tt
  | field :: rest =>
      let* present := py_in field config in
      if negb present then
        Raise {| exc_type := ValueError;
                 exc_msg := "Required field '" +:+ field +:+
                            "' missing from config." |}
      else check_required rest config
  end.

(** [Config._load_config]. *)
Definition Config_load_config (config_path : string) (file : ConfigFile)
  : LoadError + PyObject :=
  match file with
  | NoFile =>
      inl (FileNotFoundError
             ("Configuration file '" +:+ config_path +:+
              "' not found. Run setup.py first."))
  | BadJson err =>
      inl (LoadRaised {| exc_type := ValueError;
                         exc_msg := "Invalid JSON in config file: " +:+ err |})
  | Document config =>
      let required_fields :=
        ["bot_name"; "bot_instructions"; "api_provider"; "model"] in
      match check_required required_fields config with
      | Raise e => inl (LoadRaised e)
      | Ok _ => inr config
      end
  end.

(** [Config.__init__]. *)
Definition Config_init (config_path : string) (file : ConfigFile)
  : LoadError + Config.t :=
  match Config_load_config config_path file with
  | inl err => inl err
  | inr config =>
      inr {| Config.config_path := config_path; Config.config := config |}
  end.

(** Being a dict. *)
Definition is_dict (v : PyObject) : bool :=
  match v with
  | JObj _ => true
  | _ => false
  end.

(** A document in which [settings] is a string, not a dict. *)
Definition flat_settings_config : Config.t :=
  {| Config.config_path := "config.json";
     Config.config := JObj {[ "settings" := JStr "none" ]} |}.

(** A configuration whose provider name is a number and whose key is
    empty. *)
Definition numeric_provider_config : Config.t :=
  {| Config.config_path := "config.json";
     Config.config :=
       JObj (<[ "api_provider" := JInt 7 ]> (<[ "api_key" := JStr "" ]> ∅)) |}.

(** A JSON list that happens to hold the four required names. *)
Definition list_document : PyObject :=
  JArr [ JStr "bot_name"; JStr "bot_instructions";
         JStr "api_provider"; JStr "model" ].

(** An object document without [api_provider]. *)
Definition incomplete_document : gmap string PyObject :=
  <[ "bot_name" := JStr "Aria" ]>
  (<[ "bot_instructions" := JStr "Be brief." ]>
  (<[ "model" := JStr "gpt-4" ]> ∅)).

(** The entries of the issue lists [validate] and [validate_config]
    return: one constructor per message, with the values the message
    interpolates. *)
Inductive Issue : Type :=
| NoApiKeyFound (api_provider : PyObject)
| TemperatureOutOfRange
| MaxTokensTooLow
| ApiKeyRequired (vendor : string)
| ModelMayNotBeValid (model : PyObject) (vendor : string)
| ModelNotInCommonList (model : PyObject)
| CannotConnect (base_url : PyObject).

(** The integer literals 0, 1 and 2 as binary64 values. *)
Definition float_of_literal (n : Z) : spec_float :=
  binary_normalize 53 1024 n 0 false.

Definition unorderable : PyExc :=
  {| exc_type := TypeError; exc_msg := "comparison not supported" |}.

(** [x < n] and [x > n] for an integer literal [n] that a binary64
    holds exactly; a [JFloat] holds a binary64 in canonical form. A NaN
    compares false either way. *)
Definition py_lt_literal (x : PyObject) (n : Z) : Result bool :=
  match x with
  | JInt z => Ok (z <? n)%Z
  | JBool b => Ok (Z.b2z b <? n)%Z
  | JFloat f => Ok (SFltb f (float_of_literal n))
  | _ => Raise unorderable
  end.

Definition py_gt_literal (x : PyObject) (n : Z) : Result bool :=
  match x with
  | JInt z => Ok (n <? z)%Z
  | JBool b => Ok (n <? Z.b2z b)%Z
  | JFloat f => Ok (SFltb (float_of_literal n) f)
  | _ => Raise unorderable
  end.

(** [Config.validate]. Each use of [self.api_key], [self.temperature]
    and [self.max_tokens] evaluates the property again; the second test
    on the temperature is only reached when the first is false. *)
Definition Config_validate (rt : Runtime) (self : Config.t)
  : Result (list Issue) :=
  let issues := [] in
  let* api_key := Config.api_key rt self in
  let issues :=
    if negb (truthy api_key)
    then issues ++ [NoApiKeyFound (Config.api_provider self)]
    else issues in
  let* temperature := Config.temperature rt self in
  let* below := py_lt_literal temperature 0 in
  let* outside :=
    if below then Ok true
    else (let* temperature := Config.temperature rt self in
          py_gt_literal temperature 2) in
  let issues :=
    if outside then issues ++ [TemperatureOutOfRange] else issues in
  let* max_tokens := Config.max_tokens rt self in
  let* low := py_lt_literal max_tokens 1 in
  let issues := if low then issues ++ [MaxTokensTooLow] else issues in
  Ok issues.

(** ** ai_providers.py, continued *)

(** [model in valid_models] for a list of string literals. *)
Definition model_in (model : PyObject) (valid_models : list string) : bool :=
  match model with
  | JStr m => existsb (String.eqb m) valid_models
  | _ => false
  end.

(** [OpenAIProvider.validate_config]. *)
Definition OpenAIProvider_validate_config (self : AIProvider.t) : list Issue :=
  let issues := [] in
  let issues :=
    if negb (truthy (AIProvider.api_key self))
    then issues ++ [ApiKeyRequired "OpenAI"] else issues in
  let valid_models :=
    ["gpt-3.5-turbo"; "gpt-4"; "gpt-4-turbo-preview"; "gpt-3.5-turbo-16k"] in
  let issues :=
    if negb (model_in (AIProvider.model self) valid_models)
    then issues ++ [ModelMayNotBeValid (AIProvider.model self) "OpenAI"]
    else issues in
  issues.

(** [AnthropicProvider.validate_config]. *)
Definition AnthropicProvider_validate_config (self : AIProvider.t)
  : list Issue :=
  let issues := [] in
  let issues :=
    if negb (truthy (AIProvider.api_key self))
    then issues ++ [ApiKeyRequired "Anthropic"] else issues in
  let valid_models :=
    ["claude-3-sonnet-20240229"; "claude-3-opus-20240229";
     "claude-3-haiku-20240307"] in
  let issues :=
    if negb (model_in (AIProvider.model self) valid_models)
    then issues ++ [ModelMayNotBeValid (AIProvider.model self) "Anthropic"]
    else issues in
  issues.

(** [CohereProvider.validate_config]. *)
Definition CohereProvider_validate_config (self : AIProvider.t) : list Issue :=
  let issues := [] in
  let issues :=
    if negb (truthy (AIProvider.api_key self))
    then issues ++ [ApiKeyRequired "Cohere"] else issues in
  let valid_models := ["command"; "command-light"; "command-nightly"] in
  let issues :=
    if negb (model_in (AIProvider.model self) valid_models)
    then issues ++ [ModelMayNotBeValid (AIProvider.model self) "Cohere"]
    else issues in
  issues.

(** The [valid_models] of [GroqProvider.validate_config]. *)
Definition groq_models : list string :=
  ["groq/compound"; "groq/compound-mini"; "llama-3.3-70b-versatile";
   "llama-3.1-8b-instant"; "gemma2-9b-it"; "deepseek-r1-distill-llama-70b";
   "meta-llama/llama-4-maverick-17b-128e-instruct";
   "meta-llama/llama-4-scout-17b-16e-instruct";
   "openai/gpt-oss-120b"; "openai/gpt-oss-20b"; "qwen/qwen3-32b";
   "moonshotai/kimi-k2-instruct"; "moonshotai/kimi-k2-instruct-0905"].

(** [OllamaProvider.validate_config]; [reachable] tells whether the GET
    of [<base_url>/api/tags] came back without a [RequestException]. *)
Definition OllamaProvider_validate_config (reachable : bool)
    (base_url : PyObject) : list Issue :=
  if reachable then [] else [CannotConnect base_url].

(** [GroqProvider.validate_config]. *)
Definition GroqProvider_validate_config (self : AIProvider.t) : list Issue :=
  let issues := [] in
  let issues :=
    if negb (truthy (AIProvider.api_key self))
    then issues ++ [ApiKeyRequired "Groq"] else issues in
  let valid_models := groq_models in
  let issues :=
    if negb (model_in (AIProvider.model self) valid_models)
    then issues ++ [ModelNotInCommonList (AIProvider.model self)]
    else issues in
  issues.

(** [provider.validate_config()], by the class of [provider]. *)
Definition Provider_validate_config (reachable : bool) (provider : Provider)
  : list Issue :=
  match provider with
  | OpenAI self => OpenAIProvider_validate_config self
  | Anthropic self => AnthropicProvider_validate_config self
  | Cohere self => CohereProvider_validate_config self
  | Ollama self base_url => OllamaProvider_validate_config reachable base_url
  | Groq self => GroqProvider_validate_config self
  end.

(** The inherited attributes of a provider, and the registry name of
    its class. *)
Definition Provider_base (provider : Provider) : AIProvider.t :=
  match provider with
  | OpenAI self | Anthropic self | Cohere self | Ollama self _ | Groq self =>
      self
  end.

Definition Provider_name (provider : Provider) : string :=
  match provider with
  | OpenAI _ => "openai"
  | Anthropic _ => "anthropic"
  | Cohere _ => "cohere"
  | Ollama _ _ => "ollama"
  | Groq _ => "groq"
  end.

(** The package each constructor imports; the Ollama one imports none. *)
Definition sdk_package (provider_name : string) : option string :=
  if String.eqb provider_name "ollama" then None else Some provider_name.

(** ** chatbot.py, continued *)

(** How [setup_provider] ends: with the provider in place, or in
    [sys.exit(code)] after printing the issues or the error. *)
Inductive SetupReport : Type :=
| IssuesFound (issues : list Issue)
| SetupError (e : PyExc).

Inductive Setup : Type :=
| Ready (provider : Provider)
| Exit (code : Z) (report : SetupReport).

(** [ChatBot.setup_provider]. [sys.exit] raises [SystemExit], which the
    [except Exception] clause does not catch. *)
Definition ChatBot_setup_provider (rt : Runtime) (reachable : bool)
    (config : Config.t) : Setup :=
  match
    (let* provider := ProviderFactory.create_provider rt config in
     let* config_issues := Config_validate rt config in
     Ok (provider,
         config_issues ++ Provider_validate_config reachable provider))
  with
  | Ok (provider, issues) =>
      match issues with
      | [] => Ready provider
      | _ :: _ => Exit 1 (IssuesFound issues)
      end
  | Raise e => Exit 1 (SetupError e)
  end.

(** [s.strip()]: the characters [str.isspace] accepts, among the first
    256 code points. *)
Definition is_space (c : ascii) : bool :=
  let n := N_of_ascii c in
  (((9 <=? n) && (n <=? 13)) || ((28 <=? n) && (n <=? 32))
   || (n =? 133) || (n =? 160))%N.

Fixpoint lstrip (s : string) : string :=
  match s with
  | EmptyString => EmptyString
  | String c s' => if is_space c then lstrip s' else s
  end.

Fixpoint rstrip (s : string) : string :=
  match s with
  | EmptyString => EmptyString
  | String c s' =>
      match rstrip s' with
      | EmptyString => if is_space c then EmptyString else String c EmptyString
      | r => String c r
      end
  end.

Definition strip (s : string) : string := rstrip (lstrip s).

(** [s.title()]: a letter that follows a letter is lower-cased, any
    other letter is upper-cased. *)
Fixpoint title_from (previous_is_cased : bool) (s : string) : string :=
  match s with
  | EmptyString => EmptyString
  | String c s' =>
      if is_lower c then
        String (if previous_is_cased then c else ascii_upper c)
          (title_from true s')
      else if is_upper c then
        String (if previous_is_cased then ascii_lower c else c)
          (title_from true s')
      else String c (title_from false s')
  end.

Definition title (s : string) : string := title_from false s.

(** [x[:n]]: a string or a list can be sliced, nothing else among the
    values a document holds (a dict raises [TypeError] as well up to
    CPython 3.11, [KeyError] afterwards). *)
Definition py_head (n : nat) (x : PyObject) : Result PyObject :=
  match x with
  | JStr s => Ok (JStr (String.substring 0 n s))
  | JArr l => Ok (JArr (take n l))
  | _ => Raise {| exc_type := TypeError; exc_msg := "object is not subscriptable" |}
  end.

(** What the terminal session shows or writes beyond a chat turn's own
    events: one constructor per message, with the values it
    interpolates; [ConversationAppended] is the block written to the
    conversation file. *)
Inductive Shown : Type :=
| FromTurn (ev : ChatBot.Event)
| Welcome (bot_name api_provider model temperature : PyObject)
| Goodbye (bot_name : PyObject)
| HelpShown
| ConfigShown
    (bot_name api_provider model temperature max_tokens instructions : PyObject)
| NoHistory
| HistoryShown (entries : list (string * PyObject))
| NothingToSave
| ConversationAppended (filename : PyObject) (timestamp : string)
    (bot_name api_provider model : PyObject)
    (entries : list (string * PyObject))
| SavedTo (filename : PyObject)
| SaveFailed (e : PyExc)
| Interrupted
| InputEnded.

(** What the outside answers while one input line is handled: the
    provider, the clock, and whether appending to the conversation file
    goes through. *)
Record World : Type := {
  provider_chat : list Message -> Result PyObject;
  now : string;
  file_append : Result unit
}.

(** [ChatBot.save_conversation]. Everything from [open] to the last
    [write] sits in the [try]; a failure in the middle of the writes is
    shown like one at [open]. *)
Definition ChatBot_save_conversation (w : World) (self : ChatBot.t)
  : list Shown :=
  match ChatBot.conversation_history self with
  | [] => [NothingToSave]
  | _ :: _ =>
      let filename :=
        Config.get (ChatBot.config self) "settings.conversation_file"
          (JStr "chat_history.txt") in
      let timestamp := now w in
      match file_append w with
      | Ok _ =>
          [ ConversationAppended filename timestamp
              (Config.bot_name (ChatBot.config self))
              (Config.api_provider (ChatBot.config self))
              (Config.model (ChatBot.config self))
              (map (fun msg => (title (role msg), content msg))
                 (ChatBot.conversation_history self));
            SavedTo filename ]
      | Raise e => [SaveFailed e]
      end
  end.

(** The text [show_history] prints for one message:
    [content[:100] + "..." if len(content) > 100 else content]. *)
Definition preview (content : PyObject) : Result PyObject :=
  let* n := py_len content in
  if Nat.ltb 100 n then
    let* head := py_head 100 content in
    match head with
    | JStr h => Ok (JStr (h +:+ "..."))
    | _ => Raise {| exc_type := TypeError;
                    exc_msg := "can only concatenate list to list" |}
    end
  else Ok content.

(** The [for i, msg in enumerate(...)] loop of [show_history]. *)
Fixpoint history_entries (history : list Message)
  : Result (list (string * PyObject)) :=
  match history with
  | [] => Ok []
  | msg :: rest =>
      let role := title (role msg) in
      let* content := preview (content msg) in
      let* entries := history_entries rest in
      Ok ((role, content) :: entries)
  end.

(** [ChatBot.show_history]. An exception leaves the loop, and the
    method, half way; the lines printed before it are not kept here. *)
Definition ChatBot_show_history (self : ChatBot.t) : Result (list Shown) :=
  match ChatBot.conversation_history self with
  | [] => Ok [NoHistory]
  | _ :: _ =>
      let* entries := history_entries (ChatBot.conversation_history self) in
      Ok [HistoryShown entries]
  end.

(** [ChatBot.print_config]. *)
Definition ChatBot_print_config (rt : Runtime) (self : ChatBot.t)
  : Result (list Shown) :=
  let config := ChatBot.config self in
  let* temperature := Config.temperature rt config in
  let* max_tokens := Config.max_tokens rt config in
  let* instructions := py_head 100 (Config.bot_instructions config) in
  Ok [ConfigShown (Config.bot_name config) (Config.api_provider config)
        (Config.model config) temperature max_tokens instructions].

(** The test [get('settings.save_conversation', True) and
    self.conversation_history] that guards the saving on the way out. *)
Definition save_on_exit (w : World) (self : ChatBot.t) : list Shown :=
  if truthy (Config.get (ChatBot.config self) "settings.save_conversation"
               (JBool true))
     && negb (Nat.eqb (length (ChatBot.conversation_history self)) 0)
  then ChatBot_save_conversation w self
  else [].

(** [ChatBot.handle_user_input]. The exceptions of [print_config] and
    [show_history] are not caught here. *)
Definition ChatBot_handle_user_input (rt : Runtime) (w : World)
    (self : ChatBot.t) (user_input : string)
  : Result (ChatBot.t * list Shown * bool) :=
  let user_input := strip user_input in
  if existsb (String.eqb (lower user_input)) ["quit"; "exit"; "bye"] then
    let saved := save_on_exit w self in
    Ok (self, saved ++ [Goodbye (Config.bot_name (ChatBot.config self))], false)
  else if String.eqb (lower user_input) "clear" then
    let '(self, trace) := ChatBot.clear_history self in
    Ok (self, map FromTurn trace, true)
  else if String.eqb (lower user_input) "help" then
    Ok (self, [HelpShown], true)
  else if String.eqb (lower user_input) "config" then
    let* shown := ChatBot_print_config rt self in
    Ok (self, shown, true)
  else if String.eqb (lower user_input) "history" then
    let* shown := ChatBot_show_history self in
    Ok (self, shown, true)
  else if String.eqb (lower user_input) "save" then
    Ok (self, ChatBot_save_conversation w self, true)
  else if String.eqb user_input "" then
    Ok (self, [], true)
  else
    let '(self, trace, continue) :=
      ChatBot.process_chat_message (provider_chat w) self user_input in
    Ok (self, map FromTurn trace, continue).

(** What [input()] gives the loop of [run]: a line, or the
    [KeyboardInterrupt] or [EOFError] it raises; each with the outside
    world of that moment. *)
Inductive Input : Type :=
| Typed (line : string) (w : World)
| CtrlC (w : World)
| EndOfInput (w : World).

(** The [while True] loop of [run] with its two [except] clauses, over
    the inputs that arrive. The flag of the result tells whether the
    loop was left; it is [false] when the inputs ran out and the loop
    still waits in [input()]. *)
Fixpoint run_loop (rt : Runtime) (self : ChatBot.t) (inputs : list Input)
  : Result (ChatBot.t * list Shown * bool) :=
  match inputs with
  | [] => Ok (self, [], false)
  | Typed line w :: rest =>
      match ChatBot_handle_user_input rt w self line with
      | Raise e => Raise e
      | Ok (self, shown, continue) =>
          if continue then
            match run_loop rt self rest with
            | Raise e => Raise e
            | Ok (self, shown', ended) => Ok (self, shown ++ shown', ended)
            end
          else Ok (self, shown, true)
      end
  | CtrlC w :: _ => Ok (self, Interrupted :: save_on_exit w self, true)
  | EndOfInput w :: _ => Ok (self, InputEnded :: save_on_exit w self, true)
  end.


(** The words [handle_user_input] treats as commands, compared with the
    stripped, lower-cased line: the three that end the session, and all
    eight. *)
Definition is_quit (cmd : string) : bool :=
  existsb (String.eqb cmd) ["quit"; "exit"; "bye"].

Definition is_command (cmd : string) : bool :=
  is_quit cmd || String.eqb cmd "clear" || String.eqb cmd "help"
  || String.eqb cmd "config" || String.eqb cmd "history"
  || String.eqb cmd "save".

(** A line that reaches the provider: not blank, not a command. *)
Definition is_chat_line (line : string) : bool :=
  negb (is_command (lower (strip line))) && negb (String.eqb (strip line) "").

(** The chat-turn events among what a session showed, and the provider
    calls among them. *)
Definition turn_events (shown : list Shown) : list ChatBot.Event :=
  flat_map (fun x => match x with
                     | FromTurn ev => [ev]
                     | _ => []
                     end) shown.

Definition chat_calls (shown : list Shown) : list (list Message) :=
  provider_calls (turn_events shown).

(** The blocks appended to the conversation file. *)
Definition appended (shown : list Shown) : list (list (string * PyObject)) :=
  flat_map (fun x => match x with
                     | ConversationAppended _ _ _ _ _ entries => [entries]
                     | _ => []
                     end) shown.

(** The token estimates among a turn's events. *)
Definition estimates_shown (trace : list ChatBot.Event) : list nat :=
  flat_map (fun ev => match ev with
                      | ChatBot.Printed (ChatBot.TokenEstimate n) => [n]
                      | _ => []
                      end) trace.

(** A text as [show_history] prints it: cut after 100 characters, with
    an ellipsis, when it is longer. *)
Definition clip (s : string) : string :=
  if Nat.ltb 100 (String.length s)
  then String.substring 0 100 s +:+ "..."
  else s.


(** The user an update comes from. *)
Definition update_user (u : Update) : Z :=
  match u with
  | StartCommand user_id | ClearCommand user_id
  | TextMessage user_id _ _ _ _ => user_id
  end.

(** The request the bridge assembles for a user whose stored history is
    [h] and who sends [text]. *)
Definition bridge_request (config : Config.t) (h : list Message)
    (text : string) : list Message :=
  (if truthy (Config.bot_instructions config)
   then [system_message config] else [])
  ++ h ++ [user_message text].

(** The names [_load_config] requires, in the order it checks them. *)
Definition required_fields : list string :=
  ["bot_name"; "bot_instructions"; "api_provider"; "model"].

Definition missing_field_error (field : string) : LoadError :=
  LoadRaised {| exc_type := ValueError;
                exc_msg := "Required field '" +:+ field +:+
                           "' missing from config." |}.

(** The documents that are neither a dict, a string nor a list. *)
Definition is_scalar (v : PyObject) : bool :=
  match v with
  | JNull | JBool _ | JInt _ | JFloat _ => true
  | _ => false
  end.

(** What an [IndexError] on an empty list says. *)
Definition index_error : PyExc :=
  {| exc_type := IndexError; exc_msg := "list index out of range" |}.

(** [chat] relates to the outcome [sdk] of the SDK call as follows: it
    returns the first of the reply's [items], and it raises a plain
    [Exception] with the prefixed message of the cause, which is the
    SDK's exception or the [IndexError] of a reply without items. *)
Definition first_or_wrapped {R} (prefix : string) (sdk : Result R)
    (items : R -> list PyObject) (chat : Result PyObject) : Prop :=
  match chat with
  | Ok answer => exists r rest, sdk = Ok r /\ items r = answer :: rest
  | Raise e =>
      exc_type e = PlainException /\
      exists cause,
        exc_msg e = prefix +:+ exc_msg cause /\
        (sdk = Raise cause \/
         (exists r, sdk = Ok r /\ items r = []) /\ cause = index_error)
  end.


(** A configuration for a local Ollama server, without any key. *)
Definition ollama_config : Config.t :=
  {| Config.config_path := "config.json";
     Config.config :=
       JObj (<[ "api_provider" := JStr "Ollama" ]>
            (<[ "model" := JStr "llama3" ]> ∅)) |}.


(** A Groq configuration with a key, whose model is not in the
    provider's list and whose temperature is NaN. *)
Definition new_model_config : Config.t :=
  {| Config.config_path := "config.json";
     Config.config :=
       JObj (<[ "bot_name" := JStr "Aria" ]>
            (<[ "bot_instructions" := JStr "Be brief." ]>
            (<[ "api_provider" := JStr "groq" ]>
            (<[ "model" := JStr "llama-5-preview" ]>
            (<[ "temperature" := JFloat S754_nan ]>
            (<[ "api_key" := JStr "gsk-1" ]> ∅)))))) |}.

(** An SDK call that answers with no completion at all. *)
Definition no_choices (args : CompletionsCreate) : Result ChatCompletion :=
  Ok {| choices := [] |}.

(** A world whose provider answers [hello] and whose file system
    accepts the append, and one whose provider is down. *)
Definition hello_world : World :=
  {| provider_chat := hello_provider;
     now := "2024-05-01 12:00:00";
     file_append := Ok tt |}.

Definition offline_world : World :=
  {| provider_chat := failing_provider;
     now := "2024-05-01 12:00:00";
     file_append := Ok tt |}.

(** A configuration that asks for token estimates, and a session over it
    whose history holds a reply without a length. *)
Definition token_usage_config : Config.t :=
  {| Config.config_path := "config.json";
     Config.config :=
       JObj (<[ "bot_instructions" := JStr "" ]>
            (<[ "settings" := JObj (<[ "show_token_usage" := JBool true ]> ∅) ]>
             ∅)) |}.

Definition null_reply_bot : ChatBot.t :=
  {| ChatBot.config := token_usage_config;
     ChatBot.conversation_history :=
       [ user_message "hi"; assistant_message JNull ] |}.


(** * Properties *)

Example split_dotted :
  split "." "settings.save_conversation" = ["settings"; "save_conversation"].
Proof. reflexivity. Qed.

Example split_edge_cases :
  split "." "" = [""] /\ split "." "a..b" = ["a"; ""; "b"] /\ split "." "a." = ["a"; ""].
Proof. repeat split. Qed.

Section ConfigGet.

Variable default : PyObject.

Lemma get_loop_reaches v keys leaf :
  reaches v keys leaf -> Config.get_loop keys v default = leaf.
Proof.
  induction 1 as [v | d k v keys leaf Hk _ IH]; simpl.
  - reflexivity.
  - rewrite Hk. exact IH.
Qed.

Lemma get_loop_blocked v pre w k post :
  reaches v pre w -> blocked w k ->
  Config.get_loop (pre ++ k :: post) v default = default.
Proof.
  induction 1 as [v | d k' v keys leaf Hk _ IH]; intros Hb; simpl.
  - destruct v; try reflexivity. simpl in Hb. rewrite Hb. reflexivity.
  - rewrite Hk. apply IH, Hb.
Qed.

Lemma reaches_or_blocked keys : forall v,
  (exists leaf, reaches v keys leaf) \/
  (exists pre k post w,
      keys = pre ++ k :: post /\ reaches v pre w /\ blocked w k).
Proof.
  induction keys as [| k keys IH]; intros v.
  - left. exists v. constructor.
  - assert (Hstuck : blocked v k ->
              (exists pre k0 post w,
                  k :: keys = pre ++ k0 :: post /\ reaches v pre w /\ blocked w k0)).
    { intros Hb. exists [], k, keys, v. repeat split; [constructor | exact Hb]. }
    destruct v as [| b | z | f | s | l | d]; try (right; apply Hstuck; exact I).
    destruct (d !! k) as [v' |] eqn:Hk; [| right; apply Hstuck; exact Hk].
    destruct (IH v') as [[leaf Hr] | (pre & k0 & post & w & -> & Hr & Hb)].
    + left. exists leaf. econstructor; eassumption.
    + right. exists (k :: pre), k0, post, w.
      repeat split; [econstructor; eassumption | exact Hb].
Qed.

End ConfigGet.

(** C3. [Config.get] splits the dotted key and walks the nested mappings
    one segment at a time. When every segment is found it returns the
    leaf reached; when after some prefix of the segments the current
    value is not a mapping or lacks the next segment it returns the
    default; one of the two always applies. In particular
    [get("settings.save_conversation", true)] is [false] on
    [{"settings": {"save_conversation": false}}] and [true] on [{}]. *)
Theorem get_traverses_or_defaults :
  forall (self : Config.t) (key : string) (default : PyObject),
    let keys := split "." key in
    (forall leaf,
        reaches (Config.config self) keys leaf ->
        Config.get self key default = leaf) /\
    (forall pre k post v,
        keys = pre ++ k :: post ->
        reaches (Config.config self) pre v -> blocked v k ->
        Config.get self key default = default) /\
    ((exists leaf, reaches (Config.config self) keys leaf) \/
     (exists pre k post v,
         keys = pre ++ k :: post /\
         reaches (Config.config self) pre v /\ blocked v k)) /\
    Config.get settings_config "settings.save_conversation" (JBool true)
      = JBool false /\
    Config.get empty_config "settings.save_conversation" (JBool true)
      = JBool true.
Proof.
  intros self key default keys. unfold Config.get. fold keys.
  split; [| split; [| split; [| split]]].
  - intros leaf Hr. apply get_loop_reaches, Hr.
  - intros pre k post v -> Hr Hb. apply get_loop_blocked with (w := v); assumption.
  - apply reaches_or_blocked.
  - reflexivity.
  - reflexivity.
Qed.

Lemma get_traverses_or_defaults_witness :
  Config.get settings_config "settings.save_conversation" (JBool true)
    = JBool false /\
  Config.get settings_config "settings.missing.deeper" JNull = JNull /\
  Config.get settings_config "settings.save_conversation.deeper" JNull = JNull.
Proof.
  split; [| split].
  - apply (proj1 (get_traverses_or_defaults settings_config
                    "settings.save_conversation" (JBool true))).
    eapply reaches_down; [reflexivity |].
    eapply reaches_down; [reflexivity |]. apply reaches_here.
  - apply (proj1 (proj2 (get_traverses_or_defaults settings_config
                           "settings.missing.deeper" JNull))
             ["settings"] "missing" ["deeper"]
             (JObj {[ "save_conversation" := JBool false ]})).
    + reflexivity.
    + eapply reaches_down; [reflexivity |]. apply reaches_here.
    + reflexivity.
  - apply (proj1 (proj2 (get_traverses_or_defaults settings_config
                           "settings.save_conversation.deeper" JNull))
             ["settings"; "save_conversation"] "deeper" [] (JBool false)).
    + reflexivity.
    + eapply reaches_down; [reflexivity |].
      eapply reaches_down; [reflexivity |]. apply reaches_here.
    + exact I.
Defined.

Section ApiKey.

Variable rt : Runtime.

Lemma probe_env_first_nonempty env_names : forall key,
  Config.probe_env rt env_names key =
    match env_names with
    | [] => key
    | _ => JStr (first_nonempty (map (getenv rt) env_names))
    end.
Proof.
  induction env_names as [| name rest IH]; intros key; [reflexivity |].
  cbn [Config.probe_env map]. unfold first_nonempty. cbn [List.filter truthy].
  destruct (String.eqb (getenv rt name) "") eqn:E; cbn [negb hd].
  - rewrite IH. apply String.eqb_eq in E.
    destruct rest; [rewrite E; reflexivity | reflexivity].
  - reflexivity.
Qed.

End ApiKey.

(** C4. [api_key] returns the configuration's own [api_key] whenever that
    is non-empty, whatever the environment holds. Otherwise, with the
    provider name upper-cased to [P], it returns the first non-empty of
    the environment variables [P_API_KEY], [PAPI_KEY], [API_KEY], in that
    order, and the empty string when all three are unset or empty. With
    an empty configured key, provider [groq] and [GROQ_API_KEY=xyz] the
    result is [xyz]. *)
Theorem api_key_config_then_environment :
  forall (rt : Runtime) (self : Config.t),
    let key := Config.get self "api_key" (JStr "") in
    (truthy key = true -> Config.api_key rt self = Ok key) /\
    (truthy key = false ->
     forall provider, Config.api_provider self = JStr provider ->
       Config.api_key rt self =
         Ok (JStr (first_nonempty
                     (map (getenv rt)
                        [ upper provider +:+ "_API_KEY";
                          upper provider +:+ "API_KEY";
                          "API_KEY" ])))) /\
    Config.api_key groq_runtime groq_config = Ok (JStr "xyz").
Proof.
  intros rt self key. unfold Config.api_key. fold key.
  split; [| split].
  - intros ->. reflexivity.
  - intros -> provider ->. cbn [negb Config.str_upper bind].
    rewrite probe_env_first_nonempty. reflexivity.
  - reflexivity.
Qed.

Lemma api_key_config_then_environment_witness :
  Config.api_key groq_runtime groq_config = Ok (JStr "xyz") /\
  Config.api_key groq_runtime
    {| Config.config_path := "config.json";
       Config.config := JObj {[ "api_key" := JStr "sk-local" ]} |}
    = Ok (JStr "sk-local").
Proof.
  split.
  - destruct (api_key_config_then_environment groq_runtime groq_config)
      as (_ & Henv & _).
    apply (Henv eq_refl "groq" eq_refl).
  - destruct (api_key_config_then_environment groq_runtime
                {| Config.config_path := "config.json";
                   Config.config := JObj {[ "api_key" := JStr "sk-local" ]} |})
      as (Hcfg & _).
    apply Hcfg. reflexivity.
Defined.

Section AnthropicFormat.

Import AnthropicProvider.

Lemma anthropic_convert_app l1 l2 : forall sys acc,
  convert (l1 ++ l2) sys acc =
    convert l2 (fst (convert l1 sys acc)) (snd (convert l1 sys acc)).
Proof.
  induction l1 as [| m l1 IH]; intros sys acc; simpl; [reflexivity |].
  destruct (String.eqb (role m) "system"); apply IH.
Qed.

Lemma anthropic_convert_turns msgs : forall sys acc,
  snd (convert msgs sys acc) =
    acc ++ List.filter (fun m => negb (has_role "system" m)) msgs.
Proof.
  induction msgs as [| m msgs IH]; intros sys acc; simpl.
  - symmetry. apply app_nil_r.
  - unfold has_role at 1.
    destruct (String.eqb (role m) "system"); simpl; rewrite IH.
    + reflexivity.
    + rewrite <- app_assoc. reflexivity.
Qed.

Lemma anthropic_convert_keeps_system msgs : forall sys acc,
  no_role "system" msgs -> fst (convert msgs sys acc) = sys.
Proof.
  induction msgs as [| m msgs IH]; intros sys acc Hno; simpl; [reflexivity |].
  inversion Hno as [| ? ? Hm Hrest]; subst.
  unfold has_role in Hm. rewrite Hm. apply IH, Hrest.
Qed.

Lemma anthropic_convert_last_system pre s post sys acc :
  has_role "system" s = true -> no_role "system" post ->
  fst (convert (pre ++ s :: post) sys acc) = content s.
Proof.
  intros Hs Hpost. rewrite anthropic_convert_app. simpl.
  unfold has_role in Hs. rewrite Hs.
  apply anthropic_convert_keeps_system, Hpost.
Qed.

Lemma filter_no_system l :
  no_role "system" l ->
  List.filter (fun m => negb (has_role "system" m)) l = l.
Proof.
  induction 1 as [| m l Hm _ IH]; simpl; [reflexivity |].
  rewrite Hm. simpl. rewrite IH. reflexivity.
Qed.

Lemma request_fields self msgs :
  request self msgs =
    {| model := AIProvider.model self;
       system := fst (convert msgs (JStr "") []);
       messages := snd (convert msgs (JStr "") []);
       temperature := AIProvider.temperature self;
       max_tokens := AIProvider.max_tokens self |}.
Proof. unfold request. destruct (convert msgs (JStr "") []); reflexivity. Qed.

End AnthropicFormat.

(** C2. The Anthropic-style [chat] hands the SDK a request in which a
    conversation's single system message has been moved out of the turn
    list: when exactly one message has role [system], the [system] field
    is its content and [messages] is the rest of the conversation in its
    original order; when none has, [messages] is the conversation
    itself. The conversation [system:"S", user:"u1", assistant:"a1",
    user:"u2"] gives [system = "S"] and the turns [user:"u1",
    assistant:"a1", user:"u2"], and [chat] returns the first text block
    of the reply to exactly that request. *)
Theorem anthropic_extracts_system_message :
  forall (self : AIProvider.t) (msgs : list Message),
    let r := AnthropicProvider.request self msgs in
    (forall pre s post,
        msgs = pre ++ s :: post -> has_role "system" s = true ->
        no_role "system" pre -> no_role "system" post ->
        AnthropicProvider.system r = content s /\
        AnthropicProvider.messages r = pre ++ post) /\
    (no_role "system" msgs -> AnthropicProvider.messages r = msgs) /\
    AnthropicProvider.request self sample_messages =
      {| AnthropicProvider.model := AIProvider.model self;
         AnthropicProvider.system := JStr "S";
         AnthropicProvider.messages :=
           [ {| role := "user"; content := JStr "u1" |};
             {| role := "assistant"; content := JStr "a1" |};
             {| role := "user"; content := JStr "u2" |} ];
         AnthropicProvider.temperature := AIProvider.temperature self;
         AnthropicProvider.max_tokens := AIProvider.max_tokens self |} /\
    (forall create text rest,
        create r = Ok {| AnthropicProvider.content_texts := text :: rest |} ->
        AnthropicProvider.chat create self msgs = Ok text).
Proof.
  intros self msgs r. subst r. rewrite request_fields. simpl.
  split; [| split; [| split]].
  - intros pre s post -> Hs Hpre Hpost. split.
    + apply anthropic_convert_last_system; assumption.
    + rewrite anthropic_convert_turns. simpl.
      rewrite List.filter_app. simpl. rewrite Hs. simpl.
      rewrite !filter_no_system by assumption. reflexivity.
  - intros Hno. rewrite anthropic_convert_turns. simpl.
    apply filter_no_system, Hno.
  - reflexivity.
  - intros create text rest Hc. unfold AnthropicProvider.chat.
    rewrite request_fields, Hc. reflexivity.
Qed.

Lemma anthropic_extracts_system_message_witness :
  AnthropicProvider.system (AnthropicProvider.request sample_provider sample_messages)
    = JStr "S" /\
  AnthropicProvider.messages (AnthropicProvider.request sample_provider sample_messages)
    = [ {| role := "user"; content := JStr "u1" |};
        {| role := "assistant"; content := JStr "a1" |};
        {| role := "user"; content := JStr "u2" |} ].
Proof.
  destruct (anthropic_extracts_system_message sample_provider sample_messages)
    as (Hone & _).
  apply (Hone [] {| role := "system"; content := JStr "S" |}
           [ {| role := "user"; content := JStr "u1" |};
             {| role := "assistant"; content := JStr "a1" |};
             {| role := "user"; content := JStr "u2" |} ]).
  - reflexivity.
  - reflexivity.
  - constructor.
  - repeat constructor.
Defined.

(** C10. Whatever the conversation, the Anthropic-style request carries
    no system message in its turn list: [messages] is the conversation
    with every message of role [system] removed, wherever it stood. Its
    [system] field is the content of the last system message of the
    conversation, and the empty string when there is none. *)
Theorem anthropic_last_system_wins :
  forall (self : AIProvider.t) (msgs : list Message),
    let r := AnthropicProvider.request self msgs in
    AnthropicProvider.messages r =
      List.filter (fun m => negb (has_role "system" m)) msgs /\
    no_role "system" (AnthropicProvider.messages r) /\
    (forall pre s post,
        msgs = pre ++ s :: post -> has_role "system" s = true ->
        no_role "system" post ->
        AnthropicProvider.system r = content s) /\
    (no_role "system" msgs -> AnthropicProvider.system r = JStr "") /\
    AnthropicProvider.system
      (AnthropicProvider.request self two_system_messages) = JStr "S2" /\
    AnthropicProvider.messages
      (AnthropicProvider.request self two_system_messages) =
      [ {| role := "user"; content := JStr "u1" |};
        {| role := "assistant"; content := JStr "a1" |} ].
Proof.
  intros self msgs r. subst r. rewrite request_fields. simpl.
  rewrite anthropic_convert_turns. simpl.
  split; [| split; [| split; [| split; [| split]]]].
  - reflexivity.
  - unfold no_role. rewrite List.Forall_forall. intros m Hin.
    apply List.filter_In in Hin. destruct Hin as [_ Hm].
    destruct (has_role "system" m); [discriminate | reflexivity].
  - intros pre s post -> Hs Hpost.
    apply anthropic_convert_last_system; assumption.
  - intros Hno. apply anthropic_convert_keeps_system, Hno.
  - reflexivity.
  - reflexivity.
Qed.

Lemma anthropic_last_system_wins_witness :
  AnthropicProvider.system
    (AnthropicProvider.request sample_provider two_system_messages) = JStr "S2" /\
  AnthropicProvider.system
    (AnthropicProvider.request sample_provider
       [ {| role := "user"; content := JStr "u1" |} ]) = JStr "".
Proof.
  split.
  - destruct (anthropic_last_system_wins sample_provider two_system_messages)
      as (_ & _ & Hlast & _).
    apply (Hlast [ {| role := "system"; content := JStr "S1" |};
                   {| role := "user"; content := JStr "u1" |} ]
             {| role := "system"; content := JStr "S2" |}
             [ {| role := "assistant"; content := JStr "a1" |} ]).
    + reflexivity.
    + reflexivity.
    + repeat constructor.
  - destruct (anthropic_last_system_wins sample_provider
                [ {| role := "user"; content := JStr "u1" |} ])
      as (_ & _ & _ & Hnone & _).
    apply Hnone. repeat constructor.
Defined.

Section CohereFormat.

Import CohereProvider.

Lemma cohere_convert_app l1 l2 : forall hist txt,
  convert (l1 ++ l2) hist txt =
    convert l2 (fst (convert l1 hist txt)) (snd (convert l1 hist txt)).
Proof.
  induction l1 as [| m l1 IH]; intros hist txt; simpl; [reflexivity |].
  destruct (String.eqb (role m) "system"); [apply IH |].
  destruct (String.eqb (role m) "user"); [apply IH |].
  destruct (String.eqb (role m) "assistant"); apply IH.
Qed.

(** The three roles are distinct strings: at most one test of the
    [if]/[elif] chain holds for a message. *)
Lemma assistant_not_other m :
  String.eqb (role m) "assistant" = true ->
  String.eqb (role m) "system" = false /\ String.eqb (role m) "user" = false.
Proof.
  intros H. apply String.eqb_eq in H. rewrite H. split; reflexivity.
Qed.

Lemma cohere_convert_history msgs : forall hist txt,
  fst (convert msgs hist txt) =
    hist ++ map chatbot_turn (List.filter (has_role "assistant") msgs).
Proof.
  induction msgs as [| m msgs IH]; intros hist txt; simpl.
  - symmetry. apply app_nil_r.
  - unfold has_role at 1.
    destruct (String.eqb (role m) "assistant") eqn:Ea.
    + destruct (assistant_not_other m Ea) as [-> ->].
      rewrite IH. simpl. rewrite <- app_assoc. reflexivity.
    + destruct (String.eqb (role m) "system"); [apply IH |].
      destruct (String.eqb (role m) "user"); apply IH.
Qed.

Lemma cohere_convert_keeps_text msgs : forall hist txt,
  no_role "user" msgs -> snd (convert msgs hist txt) = txt.
Proof.
  induction msgs as [| m msgs IH]; intros hist txt Hno; simpl; [reflexivity |].
  inversion Hno as [| ? ? Hm Hrest]; subst.
  unfold has_role in Hm. rewrite Hm.
  destruct (String.eqb (role m) "system"); [apply IH, Hrest |].
  destruct (String.eqb (role m) "assistant"); apply IH, Hrest.
Qed.

Lemma cohere_convert_last_user pre u post hist txt :
  has_role "user" u = true -> no_role "user" post ->
  snd (convert (pre ++ u :: post) hist txt) = content u.
Proof.
  intros Hu Hpost. rewrite cohere_convert_app. simpl.
  unfold has_role in Hu. rewrite Hu.
  apply String.eqb_eq in Hu. rewrite Hu. simpl.
  apply cohere_convert_keeps_text, Hpost.
Qed.

Lemma cohere_convert_skips_system msgs : forall hist txt,
  convert (List.filter (fun m => negb (has_role "system" m)) msgs) hist txt =
    convert msgs hist txt.
Proof.
  induction msgs as [| m msgs IH]; intros hist txt; simpl; [reflexivity |].
  unfold has_role at 1.
  destruct (String.eqb (role m) "system") eqn:Es; simpl; [apply IH |].
  rewrite Es.
  destruct (String.eqb (role m) "user"); [apply IH |].
  destruct (String.eqb (role m) "assistant"); apply IH.
Qed.

Lemma cohere_convert_skips_earlier_users pre u post :
  has_role "user" u = true ->
  forall hist txt txt',
    convert (List.filter (fun m => negb (has_role "user" m)) pre ++ u :: post)
      hist txt =
    convert (pre ++ u :: post) hist txt'.
Proof.
  intros Hu. assert (Hu' := Hu). unfold has_role in Hu'.
  assert (Hs : String.eqb (role u) "system" = false)
    by (apply String.eqb_eq in Hu'; rewrite Hu'; reflexivity).
  induction pre as [| m pre IH]; intros hist txt txt'; simpl.
  - rewrite Hs, Hu'. reflexivity.
  - unfold has_role at 1.
    destruct (String.eqb (role m) "user") eqn:Em; simpl.
    + assert (Hms : String.eqb (role m) "system" = false)
        by (apply String.eqb_eq in Em; rewrite Em; reflexivity).
      rewrite Hms. apply IH.
    + rewrite Em.
      destruct (String.eqb (role m) "system"); [apply IH |].
      destruct (String.eqb (role m) "assistant"); apply IH.
Qed.

Lemma cohere_request_fields self msgs :
  request self msgs =
    {| model := AIProvider.model self;
       message := snd (convert msgs [] (JStr ""));
       chat_history := fst (convert msgs [] (JStr ""));
       temperature := AIProvider.temperature self;
       max_tokens := AIProvider.max_tokens self |}.
Proof. unfold request. destruct (convert msgs [] (JStr "")); reflexivity. Qed.

End CohereFormat.

(** C1. The Cohere-style [chat] hands the SDK a request built from the
    conversation as follows. [chat_history] holds one entry per
    assistant message, in order, relabelled [CHATBOT]; [message] is the
    content of the last message of role [user] (the empty string when
    there is none). System messages never
    reach the request (removing them from the conversation changes
    nothing) and neither do the user messages before the last one. The
    conversation [system:"S", user:"u1", assistant:"a1", user:"u2"]
    gives [message = "u2"] and [chat_history = [CHATBOT:"a1"]], and
    [chat] returns the text of the reply to exactly that request. *)
Theorem cohere_keeps_last_user_and_assistants :
  forall (self : AIProvider.t) (msgs : list Message),
    let r := CohereProvider.request self msgs in
    CohereProvider.chat_history r =
      map chatbot_turn (List.filter (has_role "assistant") msgs) /\
    (forall pre u post,
        msgs = pre ++ u :: post -> has_role "user" u = true ->
        no_role "user" post ->
        CohereProvider.message r = content u /\
        r = CohereProvider.request self
              (List.filter (fun m => negb (has_role "user" m)) pre
                 ++ u :: post)) /\
    (no_role "user" msgs -> CohereProvider.message r = JStr "") /\
    r = CohereProvider.request self
          (List.filter (fun m => negb (has_role "system" m)) msgs) /\
    CohereProvider.request self sample_messages =
      {| CohereProvider.model := AIProvider.model self;
         CohereProvider.message := JStr "u2";
         CohereProvider.chat_history :=
           [ {| CohereProvider.turn_role := "CHATBOT";
                CohereProvider.turn_message := JStr "a1" |} ];
         CohereProvider.temperature := AIProvider.temperature self;
         CohereProvider.max_tokens := AIProvider.max_tokens self |} /\
    (forall client_chat reply,
        client_chat r = Ok reply ->
        CohereProvider.chat client_chat self msgs
          = Ok (CohereProvider.text reply)).
Proof.
  intros self msgs r. subst r. rewrite cohere_request_fields.
  split; [| split; [| split; [| split; [| split]]]].
  - simpl. rewrite cohere_convert_history. reflexivity.
  - intros pre u post -> Hu Hpost. split.
    + simpl. apply cohere_convert_last_user; assumption.
    + rewrite cohere_request_fields.
      rewrite (cohere_convert_skips_earlier_users pre u post Hu [] (JStr "") (JStr "")).
      reflexivity.
  - intros Hno. simpl. apply cohere_convert_keeps_text, Hno.
  - rewrite cohere_request_fields, cohere_convert_skips_system. reflexivity.
  - reflexivity.
  - intros client_chat reply Hc. unfold CohereProvider.chat.
    rewrite cohere_request_fields, Hc. reflexivity.
Qed.

Lemma cohere_keeps_last_user_and_assistants_witness :
  CohereProvider.message (CohereProvider.request sample_provider sample_messages)
    = JStr "u2" /\
  CohereProvider.request sample_provider sample_messages =
    CohereProvider.request sample_provider
      [ {| role := "system"; content := JStr "S" |};
        {| role := "assistant"; content := JStr "a1" |};
        {| role := "user"; content := JStr "u2" |} ].
Proof.
  destruct (cohere_keeps_last_user_and_assistants sample_provider sample_messages)
    as (_ & Hlast & _).
  apply (Hlast [ {| role := "system"; content := JStr "S" |};
                 {| role := "user"; content := JStr "u1" |};
                 {| role := "assistant"; content := JStr "a1" |} ]
           {| role := "user"; content := JStr "u2" |} []).
  - reflexivity.
  - reflexivity.
  - constructor.
Defined.

Lemma append_assoc (a b c : string) : (a +:+ b) +:+ c = a +:+ (b +:+ c).
Proof.
  induction a as [| ch a IH]; [reflexivity |].
  change (String ch ((a +:+ b) +:+ c) = String ch (a +:+ (b +:+ c))).
  rewrite IH. reflexivity.
Qed.

Lemma dict_get_unregistered name :
  ~ In name ["openai"; "anthropic"; "cohere"; "ollama"; "groq"] ->
  ProviderFactory.dict_get ProviderFactory.PROVIDERS name = None.
Proof.
  intros Hnot. unfold ProviderFactory.PROVIDERS.
  cbn [ProviderFactory.dict_get].
  repeat match goal with
         | |- context [String.eqb ?k name] =>
             destruct (String.eqb_spec k name) as [E | E];
             [ exfalso; apply Hnot; rewrite <- E; simpl; tauto | clear E ]
         end.
  reflexivity.
Qed.

Lemma dict_get_registered name :
  In name ["openai"; "anthropic"; "cohere"; "ollama"; "groq"] ->
  exists provider_class,
    ProviderFactory.dict_get ProviderFactory.PROVIDERS name = Some provider_class.
Proof.
  simpl. intros [<- | [<- | [<- | [<- | [<- | []]]]]]; eexists; reflexivity.
Qed.

(** C8. [create_provider] lower-cases the configured provider name and
    looks it up in the registry [openai, anthropic, cohere, ollama,
    groq]. A name that is not registered makes it raise a [ValueError]
    whose message names the rejected provider and lists every registered
    name; a registered name selects the constructor the registry gives
    it, whatever the letter case in the configuration, and two
    configurations whose names agree up to case are handed to the same
    constructor. *)
Theorem create_provider_by_registry :
  forall (rt : Runtime) (config : Config.t) (name : string),
    Config.api_provider config = JStr name ->
    let provider_name := lower name in
    let registered := ["openai"; "anthropic"; "cohere"; "ollama"; "groq"] in
    ProviderFactory.get_available_providers = registered /\
    (~ In provider_name registered ->
     exists msg,
       ProviderFactory.create_provider rt config
         = Raise {| exc_type := ValueError; exc_msg := msg |} /\
       msg = "Unknown provider '" +:+ provider_name +:+
             "'. Available: openai, anthropic, cohere, ollama, groq" /\
       Forall (fun n => exists pre suf, msg = pre +:+ n +:+ suf) registered) /\
    (provider_name = "openai" ->
     ProviderFactory.create_provider rt config = OpenAIProvider.__init__ rt config) /\
    (provider_name = "anthropic" ->
     ProviderFactory.create_provider rt config = AnthropicProvider.__init__ rt config) /\
    (provider_name = "cohere" ->
     ProviderFactory.create_provider rt config = CohereProvider.__init__ rt config) /\
    (provider_name = "ollama" ->
     ProviderFactory.create_provider rt config = OllamaProvider.__init__ rt config) /\
    (provider_name = "groq" ->
     ProviderFactory.create_provider rt config = GroqProvider.__init__ rt config) /\
    (In provider_name registered ->
     exists provider_class,
       ProviderFactory.dict_get ProviderFactory.PROVIDERS provider_name
         = Some provider_class /\
       forall rt' config' name',
         Config.api_provider config' = JStr name' ->
         lower name' = provider_name ->
         ProviderFactory.create_provider rt' config' = provider_class rt' config').
Proof.
  intros rt config name Hname provider_name registered.
  assert (Hcreate : forall rt' config' name',
             Config.api_provider config' = JStr name' ->
             ProviderFactory.create_provider rt' config' =
               match ProviderFactory.dict_get ProviderFactory.PROVIDERS (lower name') with
               | None =>
                   Raise {| exc_type := ValueError;
                            exc_msg := "Unknown provider '" +:+ lower name' +:+
                              "'. Available: openai, anthropic, cohere, ollama, groq" |}
               | Some provider_class => provider_class rt' config'
               end).
  { intros rt' config' name' H. unfold ProviderFactory.create_provider.
    rewrite H. reflexivity. }
  split; [reflexivity |].
  split; [| repeat split].
  - intros Hnot. eexists. split; [| split; [reflexivity |]].
    + rewrite (Hcreate _ _ _ Hname). fold provider_name.
      rewrite (dict_get_unregistered _ Hnot). reflexivity.
    + set (head := "Unknown provider '" +:+ provider_name +:+ "'. Available: ").
      assert (Hin : forall pre n suf,
                 head +:+ "openai, anthropic, cohere, ollama, groq"
                   = (head +:+ pre) +:+ n +:+ suf ->
                 exists pre' suf',
                   "Unknown provider '" +:+ provider_name +:+
                     "'. Available: openai, anthropic, cohere, ollama, groq"
                   = pre' +:+ n +:+ suf').
      { intros pre n suf H. exists (head +:+ pre), suf. rewrite <- H.
        unfold head. rewrite !append_assoc. reflexivity. }
      constructor; [apply (Hin "" "openai" ", anthropic, cohere, ollama, groq") |].
      { rewrite !append_assoc. reflexivity. }
      constructor; [apply (Hin "openai, " "anthropic" ", cohere, ollama, groq") |].
      { rewrite !append_assoc. reflexivity. }
      constructor; [apply (Hin "openai, anthropic, " "cohere" ", ollama, groq") |].
      { rewrite !append_assoc. reflexivity. }
      constructor; [apply (Hin "openai, anthropic, cohere, " "ollama" ", groq") |].
      { rewrite !append_assoc. reflexivity. }
      constructor; [apply (Hin "openai, anthropic, cohere, ollama, " "groq" "") |].
      { rewrite !append_assoc. reflexivity. }
      constructor.
  - intros H. rewrite (Hcreate _ _ _ Hname). fold provider_name. rewrite H. reflexivity.
  - intros H. rewrite (Hcreate _ _ _ Hname). fold provider_name. rewrite H. reflexivity.
  - intros H. rewrite (Hcreate _ _ _ Hname). fold provider_name. rewrite H. reflexivity.
  - intros H. rewrite (Hcreate _ _ _ Hname). fold provider_name. rewrite H. reflexivity.
  - intros H. rewrite (Hcreate _ _ _ Hname). fold provider_name. rewrite H. reflexivity.
  - intros Hin. destruct (dict_get_registered _ Hin) as [provider_class Hget].
    exists provider_class. split; [exact Hget |].
    intros rt' config' name' Hname' Hlow.
    rewrite (Hcreate _ _ _ Hname'), Hlow, Hget. reflexivity.
Qed.

Lemma create_provider_by_registry_witness :
  ProviderFactory.create_provider groq_runtime mixed_case_config
    = GroqProvider.__init__ groq_runtime mixed_case_config /\
  ProviderFactory.create_provider groq_runtime unknown_provider_config
    = Raise {| exc_type := ValueError;
               exc_msg := "Unknown provider 'gemini'. Available: openai, anthropic, cohere, ollama, groq" |}.
Proof.
  split.
  - destruct (create_provider_by_registry groq_runtime mixed_case_config "GrOq" eq_refl)
      as (_ & _ & _ & _ & _ & _ & Hgroq & _).
    apply Hgroq. reflexivity.
  - destruct (create_provider_by_registry groq_runtime unknown_provider_config
                "Gemini" eq_refl)
      as (_ & Hunknown & _).
    destruct Hunknown as (msg & Hraise & Hmsg & _).
    + simpl. intros [H | [H | [H | [H | [H | []]]]]]; discriminate H.
    + rewrite Hraise, Hmsg. reflexivity.
Defined.

(** C9. The Groq provider formats its request exactly as the OpenAI
    provider does: both pass the message list through unchanged and
    attach the bound model, temperature and max-token values, so the two
    keyword-argument sets are equal. Given the same SDK behaviour the two
    [chat] methods extract the same outcome from it and differ only in
    the vendor name that prefixes a wrapped error. *)
Theorem groq_request_equals_openai_request :
  forall (self : AIProvider.t) (messages : list Message),
    GroqProvider.request self messages = OpenAIProvider.request self messages /\
    cc_messages (GroqProvider.request self messages) = messages /\
    cc_messages (OpenAIProvider.request self messages) = messages /\
    cc_model (GroqProvider.request self messages) = AIProvider.model self /\
    cc_temperature (GroqProvider.request self messages)
      = AIProvider.temperature self /\
    cc_max_tokens (GroqProvider.request self messages)
      = AIProvider.max_tokens self /\
    forall create : CompletionsCreate -> Result ChatCompletion,
      exists outcome : Result PyObject,
        outcome = bind (create (OpenAIProvider.request self messages))
                    (fun response => first_item (choices response)) /\
        OpenAIProvider.chat create self messages
          = reraise "OpenAI API error: " outcome /\
        GroqProvider.chat create self messages
          = reraise "Groq API error: " outcome.
Proof.
  intros self messages. repeat split.
  intros create. eexists. split; [reflexivity |]. split; reflexivity.
Qed.

(** C5. [get_messages_for_api] returns the history, in the order it was
    built up, behind one system message carrying the configured
    instruction; when the instruction is empty it returns the history
    alone. A successful chat turn extends what it returns by the user's
    message and then the reply, and right after [clear_history] it
    returns the system message alone, or nothing when the instruction is
    empty. For an instruction that is a string, empty means the empty
    string. *)
Theorem get_messages_for_api_system_then_history :
  forall (self : ChatBot.t),
    let instruction := Config.bot_instructions (ChatBot.config self) in
    let system := system_message (ChatBot.config self) in
    (truthy instruction = true ->
     ChatBot.get_messages_for_api self
       = system :: ChatBot.conversation_history self /\
     ChatBot.get_messages_for_api (fst (ChatBot.clear_history self))
       = [system]) /\
    (truthy instruction = false ->
     ChatBot.get_messages_for_api self = ChatBot.conversation_history self /\
     ChatBot.get_messages_for_api (fst (ChatBot.clear_history self)) = []) /\
    (forall s, instruction = JStr s -> (truthy instruction = false <-> s = "")) /\
    (forall provider_chat user_input response,
        provider_chat
          (ChatBot.get_messages_for_api self ++ [user_message user_input])
          = Ok response ->
        ChatBot.get_messages_for_api
          (fst (fst (ChatBot.process_chat_message provider_chat self user_input)))
          = ChatBot.get_messages_for_api self
              ++ [user_message user_input; assistant_message response]).
Proof.
  intros self instruction system.
  assert (Hget : forall h,
             ChatBot.get_messages_for_api (ChatBot.set_history self h) =
               (if truthy instruction then [system] else []) ++ h).
  { intros h. unfold ChatBot.get_messages_for_api. reflexivity. }
  assert (Hself : ChatBot.get_messages_for_api self =
                    (if truthy instruction then [system] else [])
                      ++ ChatBot.conversation_history self) by reflexivity.
  split; [| split; [| split]].
  - intros Ht. rewrite Hself. unfold ChatBot.clear_history. cbn [fst].
    rewrite Hget, Ht. split; reflexivity.
  - intros Ht. rewrite Hself. unfold ChatBot.clear_history. cbn [fst].
    rewrite Hget, Ht. split; reflexivity.
  - intros s ->. cbn [truthy]. rewrite negb_false_iff. apply String.eqb_eq.
  - intros provider_chat user_input response Hok.
    rewrite Hself in Hok. rewrite <- app_assoc in Hok.
    unfold ChatBot.process_chat_message.
    fold (user_message user_input). rewrite Hget, Hok.
    cbn [ChatBot.conversation_history ChatBot.set_history ChatBot.config].
    fold (assistant_message response).
    assert (Hall : ChatBot.get_messages_for_api
                     (ChatBot.set_history self
                        ((ChatBot.conversation_history self
                            ++ [user_message user_input])
                           ++ [assistant_message response]))
                   = ChatBot.get_messages_for_api self
                       ++ [user_message user_input; assistant_message response]).
    { rewrite Hget, Hself, <- !app_assoc. reflexivity. }
    destruct (truthy (Config.get (ChatBot.config self)
                        "settings.show_token_usage" (JBool false))).
    + destruct (ChatBot.total_len _); exact Hall.
    + exact Hall.
Qed.

Lemma get_messages_for_api_system_then_history_witness :
  ChatBot.get_messages_for_api one_turn_bot
    = [ system_message groq_config;
        user_message "hi"; assistant_message (JStr "hello") ] /\
  ChatBot.get_messages_for_api (fst (ChatBot.clear_history one_turn_bot))
    = [ system_message groq_config ] /\
  ChatBot.get_messages_for_api (fst (ChatBot.clear_history no_instruction_bot))
    = [].
Proof.
  destruct (get_messages_for_api_system_then_history one_turn_bot)
    as (Hfull & _).
  destruct (Hfull eq_refl) as [H1 H2].
  destruct (get_messages_for_api_system_then_history no_instruction_bot)
    as (_ & Hempty & _).
  destruct (Hempty eq_refl) as [_ H3].
  split; [exact H1 | split; [exact H2 | exact H3]].
Defined.

Section ChatTurn.

Variable provider_chat : list Message -> Result PyObject.
Variable self : ChatBot.t.
Variable user_input : string.

Lemma request_of_turn :
  ChatBot.get_messages_for_api
    (ChatBot.set_history self
       (ChatBot.conversation_history self ++ [user_message user_input]))
  = ChatBot.get_messages_for_api self ++ [user_message user_input].
Proof. unfold ChatBot.get_messages_for_api. cbn. apply app_assoc. Qed.

(** A turn leaves the configuration alone and extends the history by the
    user's message, followed by at most the provider's reply. *)
Lemma process_chat_message_state :
  let self' :=
    fst (fst (ChatBot.process_chat_message provider_chat self user_input)) in
  ChatBot.config self' = ChatBot.config self /\
  exists tail,
    ChatBot.conversation_history self' =
      ChatBot.conversation_history self ++ user_message user_input :: tail /\
    (tail = [] \/ exists response, tail = [assistant_message response]).
Proof.
  unfold ChatBot.process_chat_message.
  fold (user_message user_input). rewrite request_of_turn.
  destruct (provider_chat _) as [response | e]; cbn.
  - assert (Hh : (ChatBot.conversation_history self ++ [user_message user_input])
                   ++ [assistant_message response]
                 = ChatBot.conversation_history self
                     ++ [user_message user_input; assistant_message response])
      by (rewrite <- app_assoc; reflexivity).
    destruct (truthy _); [destruct (ChatBot.total_len _) |]; cbn;
      (split; [reflexivity |]);
      exists [assistant_message response]; (split; [exact Hh | right; eauto]).
  - split; [reflexivity |]. exists []. split; [reflexivity | left; reflexivity].
Qed.

End ChatTurn.

(** C7. When the provider's [chat] raises during a turn,
    [process_chat_message] has called it exactly once, shows that one
    error and no reply, and returns [True], so the session goes on. The
    history it leaves is the previous history followed by the user's
    message, with no assistant message after it, and the configuration
    is untouched. *)
Theorem provider_failure_abandons_turn :
  forall (provider_chat : list Message -> Result PyObject)
         (self : ChatBot.t) (user_input : string) (e : PyExc),
    let request :=
      ChatBot.get_messages_for_api self ++ [user_message user_input] in
    provider_chat request = Raise e ->
    let outcome := ChatBot.process_chat_message provider_chat self user_input in
    let self' := fst (fst outcome) in
    let trace := snd (fst outcome) in
    snd outcome = true /\
    ChatBot.conversation_history self' =
      ChatBot.conversation_history self ++ [user_message user_input] /\
    ChatBot.config self' = ChatBot.config self /\
    provider_calls trace = [request] /\
    errors_shown trace = [e] /\
    replies_shown trace = [] /\
    trace = [ ChatBot.Printed ChatBot.Thinking;
              ChatBot.ProviderChat request;
              ChatBot.Printed (ChatBot.Error e);
              ChatBot.Printed ChatBot.TryAgain ].
Proof.
  intros provider_chat self user_input e request Hfail outcome self' trace.
  subst outcome self' trace. unfold ChatBot.process_chat_message.
  fold (user_message user_input). rewrite request_of_turn.
  fold request. rewrite Hfail.
  repeat split.
Qed.

Lemma provider_failure_abandons_turn_witness :
  ChatBot.conversation_history
    (fst (fst (ChatBot.process_chat_message failing_provider one_turn_bot "again")))
    = [ user_message "hi"; assistant_message (JStr "hello"); user_message "again" ] /\
  snd (ChatBot.process_chat_message failing_provider one_turn_bot "again") = true.
Proof.
  destruct (provider_failure_abandons_turn failing_provider one_turn_bot "again"
              {| exc_type := PlainException;
                 exc_msg := "Groq API error: connection refused" |} eq_refl)
    as (Hcont & Hhist & _).
  split; [exact Hhist | exact Hcont].
Defined.

Lemma turn_messages_not_system text response :
  no_role "system" [user_message text] /\
  no_role "system" [user_message text; assistant_message response].
Proof. split; repeat constructor. Qed.

Lemma step_keeps_history_clean self op :
  no_role "system" (ChatBot.conversation_history self) ->
  no_role "system" (ChatBot.conversation_history (step self op)).
Proof.
  intros Hinv. destruct op as [provider_chat user_input |]; cbn [step].
  - destruct (process_chat_message_state provider_chat self user_input)
      as (_ & tail & -> & Htail).
    apply Forall_app. split; [exact Hinv |].
    destruct Htail as [-> | [response ->]].
    + apply (proj1 (turn_messages_not_system user_input JNull)).
    + apply (proj2 (turn_messages_not_system user_input response)).
  - constructor.
Qed.

Lemma run_keeps_history_clean ops : forall self,
  no_role "system" (ChatBot.conversation_history self) ->
  no_role "system" (ChatBot.conversation_history (run self ops)).
Proof.
  induction ops as [| op ops IH]; intros self Hinv; [exact Hinv |].
  apply IH, step_keeps_history_clean, Hinv.
Qed.

Section TelegramHistories.

Lemma clean_ensure_entry convs (user_id : Z) :
  clean convs ->
  clean (match convs !! user_id with
         | None => <[user_id := []]> convs
         | Some _ => convs
         end).
Proof.
  intros H. destruct (convs !! user_id); [exact H |].
  apply map_Forall_insert_2; [constructor | exact H].
Qed.

Lemma clean_append convs (user_id : Z) msg :
  has_role "system" msg = false ->
  clean convs -> clean (TelegramChatBot.append convs user_id msg).
Proof.
  intros Hmsg H j h Hj. unfold TelegramChatBot.append in Hj.
  apply lookup_alter_Some in Hj.
  destruct Hj as [(_ & h0 & Hh0 & ->) | (_ & Hj)].
  - apply Forall_app. split; [exact (H j h0 Hh0) | repeat constructor; exact Hmsg].
  - exact (H j h Hj).
Qed.

Lemma deliver_keeps_clean config convs u :
  clean convs -> clean (deliver config convs u).
Proof.
  intros H.
  destruct u as [user_id | user_id | user_id text send_action provider_chat reply_ok];
    cbn [deliver].
  - unfold TelegramChatBot.start_command. cbn [fst].
    apply clean_ensure_entry, H.
  - unfold TelegramChatBot.clear_command. cbn [fst].
    destruct (convs !! user_id); [| exact H].
    apply map_Forall_insert_2; [constructor | exact H].
  - unfold TelegramChatBot.handle_message.
    pose proof (clean_ensure_entry convs user_id H) as H0.
    destruct send_action as [[] | e]; [| exact H0].
    pose proof (clean_append _ user_id {| role := "user"; content := JStr text |}
                  eq_refl H0) as H1.
    destruct (provider_chat _) as [response | e]; [| exact H1].
    pose proof (clean_append _ user_id {| role := "assistant"; content := response |}
                  eq_refl H1) as H2.
    destruct reply_ok; exact H2.
Qed.

Lemma deliver_all_keeps_clean config updates : forall convs,
  clean convs -> clean (fold_left (deliver config) updates convs).
Proof.
  induction updates as [| u updates IH]; intros convs H; [exact H |].
  apply IH, deliver_keeps_clean, H.
Qed.

End TelegramHistories.

(** C6. No message of role [system] is ever stored in a history. In a
    terminal session that starts with the empty history, after any
    sequence of chat turns (answered or failed) and [clear] commands the
    history holds no system message; in the Telegram bridge, starting
    with no conversations, after any sequence of [/start], [/clear] and
    text updates no user's history holds one. The only system message of
    an assembled request is the one [get_messages_for_api] puts in front
    from the configuration. *)
Theorem history_never_stores_system_message :
  forall (config : Config.t),
    (forall ops : list Op,
        no_role "system"
          (ChatBot.conversation_history (run (ChatBot.__init__ config) ops))) /\
    (forall (updates : list Update) (user_id : Z) (h : list Message),
        deliver_all config updates !! user_id = Some h ->
        no_role "system" h) /\
    (forall ops : list Op,
        List.filter (has_role "system")
          (ChatBot.get_messages_for_api (run (ChatBot.__init__ config) ops))
        = if truthy (Config.bot_instructions config)
          then [system_message config] else []).
Proof.
  intros config.
  assert (Hrun : forall ops,
             no_role "system"
               (ChatBot.conversation_history (run (ChatBot.__init__ config) ops))).
  { intros ops. apply run_keeps_history_clean. constructor. }
  assert (Hcfg : forall ops,
             ChatBot.config (run (ChatBot.__init__ config) ops) = config).
  { intros ops. unfold run.
    assert (Hinit : ChatBot.config (ChatBot.__init__ config) = config) by reflexivity.
    revert Hinit. generalize (ChatBot.__init__ config).
    induction ops as [| op ops IH]; intros self Hself; [exact Hself |].
    apply IH. destruct op as [provider_chat user_input |]; cbn [step].
    - destruct (process_chat_message_state provider_chat self user_input)
        as (-> & _). exact Hself.
    - exact Hself. }
  split; [exact Hrun | split].
  - intros updates user_id h Hh.
    apply (deliver_all_keeps_clean config updates ∅ (map_Forall_empty _) user_id h Hh).
  - intros ops. unfold ChatBot.get_messages_for_api.
    rewrite Hcfg, List.filter_app.
    assert (Hnone : forall l, no_role "system" l ->
                              List.filter (has_role "system") l = []).
    { induction 1 as [| m l Hm _ IH]; simpl; [reflexivity |].
      rewrite Hm. exact IH. }
    rewrite (Hnone _ (Hrun ops)), app_nil_r.
    destruct (truthy (Config.bot_instructions config)); reflexivity.
Qed.

Lemma history_never_stores_system_message_witness :
  no_role "system"
    [ user_message "hi"; assistant_message (JStr "hello"); user_message "again" ].
Proof.
  destruct (history_never_stores_system_message groq_config) as (_ & Htg & _).
  apply (Htg [ StartCommand 7;
               TextMessage 7 "hi" (Ok tt) hello_provider true;
               TextMessage 7 "again" (Ok tt) failing_provider true ] 7%Z).
  reflexivity.
Defined.

(** * Further properties *)

(** ** Config.set *)

Lemma split_nonempty sep s : split sep s <> [].
Proof.
  destruct s as [| c s]; simpl; [discriminate |].
  destruct (Ascii.eqb c sep); [discriminate |].
  destruct (split sep s); discriminate.
Qed.

Lemma set_loop_cons k rest config value :
  set_loop (k :: rest) config value =
    match config with
    | JObj d =>
        match rest with
        | [] => Ok (JObj (<[k := value]> d))
        | _ :: _ =>
            bind (set_loop rest (default (JObj ∅) (d !! k)) value)
              (fun child => Ok (JObj (<[k := child]> d)))
        end
    | _ => Raise {| exc_type := TypeError; exc_msg := "not a dict" |}
    end.
Proof. destruct rest; reflexivity. Qed.

(** Below a dict that was just created nothing fails. *)
Lemma set_loop_fresh keys value :
  keys <> [] -> exists config', set_loop keys (JObj ∅) value = Ok config'.
Proof.
  induction keys as [| k rest IH]; intros Hne; [congruence |].
  rewrite set_loop_cons. destruct rest as [| k2 rest2]; [eauto |].
  rewrite lookup_empty. cbn [default].
  destruct IH as [child ->]; [discriminate |]. cbn [bind]. eauto.
Qed.

Lemma set_loop_get keys : forall config value config' dflt,
  set_loop keys config value = Ok config' ->
  Config.get_loop keys config' dflt = value.
Proof.
  induction keys as [| k rest IH]; intros config value config' dflt H.
  - discriminate H.
  - rewrite set_loop_cons in H. destruct config; try discriminate H.
    destruct rest as [| k2 rest2].
    + injection H as <-. cbn [Config.get_loop].
      rewrite lookup_insert_eq. reflexivity.
    + destruct (set_loop (k2 :: rest2) _ value) as [child |] eqn:E;
        [| discriminate H].
      injection H as <-.
      change (Config.get_loop (k :: k2 :: rest2) (JObj (<[k:=child]> d)) dflt)
        with (match <[k:=child]> d !! k with
              | Some v => Config.get_loop (k2 :: rest2) v dflt
              | None => dflt
              end).
      rewrite lookup_insert_eq. apply (IH _ _ _ _ E).
Qed.

Lemma set_loop_again keys : forall config v1 v2 config1,
  set_loop keys config v1 = Ok config1 ->
  set_loop keys config1 v2 = set_loop keys config v2.
Proof.
  induction keys as [| k rest IH]; intros config v1 v2 config1 H.
  - discriminate H.
  - rewrite set_loop_cons in H. destruct config; try discriminate H.
    destruct rest as [| k2 rest2].
    + injection H as <-. rewrite !set_loop_cons.
      rewrite insert_insert_eq. reflexivity.
    + destruct (set_loop (k2 :: rest2) _ v1) as [child |] eqn:E;
        [| discriminate H].
      injection H as <-. rewrite !(set_loop_cons k (k2 :: rest2)).
      rewrite lookup_insert_eq.
      change (default (JObj ∅) (Some child)) with child.
      rewrite (IH _ _ v2 _ E).
      destruct (set_loop (k2 :: rest2) _ v2); cbn [bind]; [| reflexivity].
      rewrite insert_insert_eq. reflexivity.
Qed.

(** X1. What [Config.set] stores under a dotted key, [Config.get] reads
    back under the same key, whatever default it is given; the file path
    is kept, and setting the same key again replaces the value as if the
    first call had not happened. *)
Theorem set_then_get_reads_back :
  forall (self self' : Config.t) (key : string) (value : PyObject),
    Config_set self key value = Ok self' ->
    (forall dflt, Config.get self' key dflt = value) /\
    Config.config_path self' = Config.config_path self /\
    (forall value2, Config_set self' key value2 = Config_set self key value2).
Proof.
  intros self self' key value H. unfold Config_set in H.
  destruct (set_loop (split "." key) (Config.config self) value)
    as [config' |] eqn:E; [| discriminate H].
  injection H as <-. cbn [bind Config.config Config.config_path].
  split; [| split].
  - intros dflt. unfold Config.get. cbn [Config.config].
    apply (set_loop_get _ _ _ _ _ E).
  - reflexivity.
  - intros value2. unfold Config_set. cbn [Config.config Config.config_path].
    rewrite (set_loop_again _ _ _ value2 _ E). reflexivity.
Qed.

Lemma set_then_get_reads_back_witness :
  exists self',
    Config_set empty_config "settings.save_conversation" (JBool false) = Ok self' /\
    Config.get self' "settings.save_conversation" (JBool true) = JBool false.
Proof.
  eexists. split; [reflexivity |].
  apply (set_then_get_reads_back empty_config _ "settings.save_conversation"
           (JBool false) eq_refl).
Defined.

Lemma reaches_nil_inv v w : reaches v [] w -> w = v.
Proof. inversion 1; reflexivity. Qed.

Lemma reaches_cons_inv v k keys w :
  reaches v (k :: keys) w ->
  exists d v', v = JObj d /\ d !! k = Some v' /\ reaches v' keys w.
Proof. inversion 1; subst; eauto. Qed.

Lemma set_loop_ok_iff keys value : forall config,
  keys <> [] ->
  (exists config', set_loop keys config value = Ok config') <->
  (forall pre k post w,
      keys = pre ++ k :: post -> reaches config pre w -> is_dict w = true).
Proof.
  induction keys as [| k rest IH]; intros config Hne; [congruence |].
  rewrite set_loop_cons. split.
  - intros [config' H] pre k0 post w Hsplit Hr.
    destruct config; try discriminate H.
    destruct pre as [| k1 pre'].
    + apply reaches_nil_inv in Hr. subst w. reflexivity.
    + injection Hsplit as <- ->.
      apply reaches_cons_inv in Hr.
      destruct Hr as (d' & v' & Hd & Hk & Hr). injection Hd as <-.
      destruct (pre' ++ k0 :: post) as [| k2 rest2] eqn:Erest;
        [destruct pre'; discriminate Erest |].
      rewrite Hk in H. change (default (JObj ∅) (Some v')) with v' in H.
      destruct (set_loop (k2 :: rest2) v' value) as [child |] eqn:E;
        [| discriminate H].
      apply (proj1 (IH v' ltac:(discriminate)) (ex_intro _ child E)
               pre' k0 post w (eq_sym Erest) Hr).
  - intros Hall.
    assert (Hd : is_dict config = true)
      by (apply (Hall [] k rest config eq_refl), reaches_here).
    destruct config; try discriminate Hd.
    destruct rest as [| k2 rest2]; [eauto |].
    assert (Hchild : exists child,
               set_loop (k2 :: rest2) (default (JObj ∅) (d !! k)) value
                 = Ok child).
    { destruct (d !! k) as [v' |] eqn:Hk.
      - apply (IH v'); [discriminate |].
        intros pre k0 post w Hsplit Hr.
        apply (Hall (k :: pre) k0 post w).
        + rewrite Hsplit. reflexivity.
        + econstructor; eassumption.
      - apply set_loop_fresh. discriminate. }
    destruct Hchild as [child ->]. cbn [bind]. eauto.
Qed.

Lemma set_loop_raises_type_error keys value : forall config e,
  keys <> [] -> set_loop keys config value = Raise e -> exc_type e = TypeError.
Proof.
  induction keys as [| k rest IH]; intros config e Hne H; [congruence |].
  rewrite set_loop_cons in H.
  destruct config; try (injection H as <-; reflexivity).
  destruct rest as [| k2 rest2]; [discriminate H |].
  destruct (set_loop (k2 :: rest2) _ value) as [child |] eqn:E;
    [discriminate H |].
  injection H as <-. apply (IH _ _ ltac:(discriminate) E).
Qed.

(** X2. [Config.set] succeeds exactly when every value it has to step
    into on the way to the last segment is a dict: a segment that is
    missing is created, a segment holding anything else (a string, a
    number, a list, null) makes it raise, and what it raises is always a
    [TypeError]. *)
Theorem set_succeeds_iff_path_through_dicts :
  forall (self : Config.t) (key : string) (value : PyObject),
    ((exists self', Config_set self key value = Ok self') <->
     (forall pre k post w,
         split "." key = pre ++ k :: post ->
         reaches (Config.config self) pre w -> is_dict w = true)) /\
    (forall e, Config_set self key value = Raise e -> exc_type e = TypeError).
Proof.
  intros self key value.
  pose proof (split_nonempty "." key) as Hne.
  pose proof (set_loop_ok_iff (split "." key) value (Config.config self) Hne)
    as Hiff.
  unfold Config_set. split; [split |].
  - intros [self' H]. apply Hiff.
    destruct (set_loop _ _ value) as [config' |]; [eauto | discriminate H].
  - intros Hall. apply Hiff in Hall. destruct Hall as [config' ->].
    cbn [bind]. eauto.
  - intros e H.
    destruct (set_loop _ _ value) as [config' |] eqn:E; [discriminate H |].
    injection H as <-. apply (set_loop_raises_type_error _ _ _ _ Hne E).
Qed.

Lemma set_succeeds_iff_path_through_dicts_witness :
  (exists self', Config_set empty_config "a.b.c" (JInt 1) = Ok self') /\
  (exists e,
      Config_set flat_settings_config "settings.save_conversation" (JBool true)
        = Raise e /\ exc_type e = TypeError).
Proof.
  destruct (set_succeeds_iff_path_through_dicts empty_config "a.b.c" (JInt 1))
    as [[_ Hok] _].
  destruct (set_succeeds_iff_path_through_dicts flat_settings_config
              "settings.save_conversation" (JBool true)) as [_ Herr].
  split.
  - apply Hok. intros pre k post w Hsplit Hr.
    destruct pre as [| k1 pre'].
    + apply reaches_nil_inv in Hr. subst w. reflexivity.
    + apply reaches_cons_inv in Hr.
      destruct Hr as (d & v' & Hd & Hk & _).
      injection Hd as <-. rewrite lookup_empty in Hk. discriminate Hk.
  - eexists. split; [reflexivity |]. apply Herr. reflexivity.
Defined.




(** ** Config._load_config *)

Lemma check_required_dict_ok fields d :
  (forall f, In f fields -> is_Some (d !! f)) ->
  check_required fields (JObj d) = Ok tt.
Proof.
  induction fields as [| f fields IH]; intros Hall; [reflexivity |].
  cbn [check_required py_in bind].
  rewrite bool_decide_eq_true_2 by (apply Hall; left; reflexivity).
  cbn [negb]. apply IH. intros g Hg. apply Hall. right. exact Hg.
Qed.

Lemma check_required_dict_missing pre f post d :
  (forall g, In g pre -> is_Some (d !! g)) -> d !! f = None ->
  check_required (pre ++ f :: post) (JObj d) =
    Raise {| exc_type := ValueError;
             exc_msg := "Required field '" +:+ f +:+ "' missing from config." |}.
Proof.
  induction pre as [| g pre IH]; intros Hall Hf.
  - cbn [app check_required py_in bind].
    rewrite bool_decide_eq_false_2; [reflexivity |].
    rewrite Hf. intros [x Hx]. discriminate Hx.
  - cbn [app check_required py_in bind].
    rewrite bool_decide_eq_true_2 by (apply Hall; left; reflexivity).
    cbn [negb]. apply IH; [| exact Hf].
    intros h Hh. apply Hall. right. exact Hh.
Qed.

Lemma check_required_dict_inv fields d :
  check_required fields (JObj d) = Ok tt ->
  forall f, In f fields -> is_Some (d !! f).
Proof.
  induction fields as [| g fields IH]; intros H f Hin; [destruct Hin |].
  cbn [check_required py_in bind] in H.
  destruct (bool_decide (is_Some (d !! g))) eqn:Hg; [| discriminate H].
  apply bool_decide_eq_true_1 in Hg. cbn [negb] in H.
  destruct Hin as [<- | Hin]; [exact Hg | apply IH; assumption].
Qed.

(** X4. Loading a JSON object succeeds, and returns the object as it is,
    when it has the four keys [bot_name], [bot_instructions],
    [api_provider] and [model]. When one is absent it raises a
    [ValueError] that names the first absent key in that order. Whether
    the values under the keys are strings is not looked at. *)
Theorem load_config_requires_four_keys :
  forall (config_path : string) (d : gmap string PyObject),
    ((forall f, In f required_fields -> is_Some (d !! f)) ->
     Config_load_config config_path (Document (JObj d)) = inr (JObj d)) /\
    (forall pre f post,
        required_fields = pre ++ f :: post ->
        (forall g, In g pre -> is_Some (d !! g)) ->
        d !! f = None ->
        Config_load_config config_path (Document (JObj d))
          = inl (missing_field_error f)).
Proof.
  intros config_path d. unfold Config_load_config.
  change ["bot_name"; "bot_instructions"; "api_provider"; "model"]
    with required_fields.
  split.
  - intros Hall. rewrite (check_required_dict_ok _ _ Hall). reflexivity.
  - intros pre f post -> Hpre Hf.
    rewrite (check_required_dict_missing _ _ _ _ Hpre Hf). reflexivity.
Qed.

Lemma load_config_requires_four_keys_witness :
  Config_load_config "config.json" (Document (JObj incomplete_document))
    = inl (missing_field_error "api_provider").
Proof.
  destruct (load_config_requires_four_keys "config.json" incomplete_document)
    as [_ Hmiss].
  apply (Hmiss ["bot_name"; "bot_instructions"] "api_provider" ["model"]).
  - reflexivity.
  - intros g [<- | [<- | []]]; eexists; reflexivity.
  - reflexivity.
Defined.

(** X5. A configuration built from a JSON object never falls back on the
    accessors' built-in defaults for its name, instructions, provider or
    model: [bot_name], [bot_instructions], [api_provider] and [model]
    return what the file holds under those keys. *)
Theorem loaded_object_answers_from_file :
  forall (config_path : string) (d : gmap string PyObject) (self : Config.t),
    Config_init config_path (Document (JObj d)) = inr self ->
    Config.config_path self = config_path /\
    d !! "bot_name" = Some (Config.bot_name self) /\
    d !! "bot_instructions" = Some (Config.bot_instructions self) /\
    d !! "api_provider" = Some (Config.api_provider self) /\
    d !! "model" = Some (Config.model self).
Proof.
  intros config_path d self H. unfold Config_init, Config_load_config in H.
  destruct (check_required _ (JObj d)) as [[] |] eqn:E; [| discriminate H].
  injection H as <-.
  pose proof (check_required_dict_inv _ _ E) as Hall.
  assert (Hget : forall f dflt,
             In f ["bot_name"; "bot_instructions"; "api_provider"; "model"] ->
             Config.get_loop [f] (JObj d) dflt = default dflt (d !! f) /\
             is_Some (d !! f)).
  { intros f dflt Hin. split; [| apply Hall, Hin].
    cbn [Config.get_loop]. destruct (d !! f); reflexivity. }
  split; [reflexivity |].
  unfold Config.bot_name, Config.bot_instructions, Config.api_provider,
    Config.model, Config.get.
  cbn [Config.config].
  repeat split.
  - destruct (Hget "bot_name" (JStr "Assistant")) as [Hg [x Hx]];
      [simpl; tauto |].
    change (split "." "bot_name") with ["bot_name"].
    rewrite Hg, Hx. reflexivity.
  - destruct (Hget "bot_instructions" (JStr "You are a helpful assistant."))
      as [Hg [x Hx]]; [simpl; tauto |].
    change (split "." "bot_instructions") with ["bot_instructions"].
    rewrite Hg, Hx. reflexivity.
  - destruct (Hget "api_provider" (JStr "openai")) as [Hg [x Hx]];
      [simpl; tauto |].
    change (split "." "api_provider") with ["api_provider"].
    rewrite Hg, Hx. reflexivity.
  - destruct (Hget "model" (JStr "gpt-3.5-turbo")) as [Hg [x Hx]];
      [simpl; tauto |].
    change (split "." "model") with ["model"].
    rewrite Hg, Hx. reflexivity.
Qed.

Lemma loaded_object_answers_from_file_witness :
  Config.api_provider groq_config = JStr "groq" /\
  Config.model groq_config = JStr "llama-3.1-8b-instant".
Proof.
  assert (Hload : Config_init "config.json"
                    (Document (Config.config groq_config)) = inr groq_config)
    by (vm_compute; reflexivity).
  destruct (loaded_object_answers_from_file "config.json" _ groq_config Hload)
    as (_ & _ & _ & Hp & Hm).
  split.
  - exact (eq_sym (f_equal (default JNull) Hp)).
  - exact (eq_sym (f_equal (default JNull) Hm)).
Defined.

Lemma check_required_list_ok fields l :
  (forall f, In f fields -> In (JStr f) l) ->
  check_required fields (JArr l) = Ok tt.
Proof.
  induction fields as [| f fields IH]; intros Hall; [reflexivity |].
  cbn [check_required py_in bind].
  assert (Hex : existsb (fun v => match v with
                                  | JStr s => String.eqb s f
                                  | _ => false
                                  end) l = true).
  { apply existsb_exists. exists (JStr f). split.
    - apply Hall. left. reflexivity.
    - apply String.eqb_refl. }
  rewrite Hex. cbn [negb]. apply IH. intros g Hg. apply Hall. right. exact Hg.
Qed.

(** X6. The required-field check only protects JSON objects. A JSON
    list that has the four required names among its elements is loaded
    as the configuration, and every lookup on it then returns the
    caller's default; a document that is null, a boolean or a number
    makes loading raise a [TypeError], not the [ValueError] of a missing
    field. *)
Theorem load_config_non_object_documents :
  forall (config_path : string),
    (forall l,
        (forall f, In f required_fields -> In (JStr f) l) ->
        exists self,
          Config_init config_path (Document (JArr l)) = inr self /\
          Config.config self = JArr l /\
          forall key dflt, Config.get self key dflt = dflt) /\
    (forall v,
        is_scalar v = true ->
        exists e,
          Config_load_config config_path (Document v) = inl (LoadRaised e) /\
          exc_type e = TypeError).
Proof.
  intros config_path. split.
  - intros l Hall. unfold Config_init, Config_load_config.
    change ["bot_name"; "bot_instructions"; "api_provider"; "model"]
      with required_fields.
    rewrite (check_required_list_ok _ _ Hall).
    eexists. split; [reflexivity |]. split; [reflexivity |].
    intros key dflt. unfold Config.get. cbn [Config.config].
    pose proof (split_nonempty "." key) as Hne.
    destruct (split "." key); [congruence | reflexivity].
  - intros v Hv. destruct v; try discriminate Hv;
      (eexists; split; [reflexivity | reflexivity]).
Qed.

Lemma load_config_non_object_documents_witness :
  (exists self,
      Config_init "config.json" (Document list_document) = inr self /\
      Config.get self "api_provider" (JStr "openai") = JStr "openai") /\
  (exists e,
      Config_load_config "config.json" (Document (JInt 3)) = inl (LoadRaised e) /\
      exc_type e = TypeError).
Proof.
  destruct (load_config_non_object_documents "config.json") as [Hlist Hscalar].
  split.
  - destruct (Hlist [ JStr "bot_name"; JStr "bot_instructions";
                      JStr "api_provider"; JStr "model" ]) as (self & H1 & _ & H3).
    + intros f Hf. simpl in Hf. simpl.
      destruct Hf as [<- | [<- | [<- | [<- | []]]]]; tauto.
    + exists self. split; [exact H1 | apply H3].
  - apply Hscalar. reflexivity.
Defined.

(** ** Config.api_key, error case *)

(** X7. [api_key] raises exactly when the configured key is empty and
    the configured provider is not a string (the environment variable
    names cannot be built then), and what it raises is an
    [AttributeError]; in every other case it returns a value. *)
Theorem api_key_raises_iff_provider_not_str :
  forall (rt : Runtime) (self : Config.t),
    ((exists e, Config.api_key rt self = Raise e) <->
     (truthy (Config.get self "api_key" (JStr "")) = false /\
      forall s, Config.api_provider self <> JStr s)) /\
    (forall e, Config.api_key rt self = Raise e -> exc_type e = AttributeError).
Proof.
  intros rt self. unfold Config.api_key.
  destruct (truthy (Config.get self "api_key" (JStr ""))) eqn:Hk; cbn [negb].
  - split; [split |].
    + intros [e H]. discriminate H.
    + intros [H _]. discriminate H.
    + intros e H. discriminate H.
  - destruct (Config.api_provider self) as [| b | z | f | s | l | d] eqn:Hp;
      cbn [Config.str_upper bind];
      (split; [split |];
       [ intros [e H]; try discriminate H;
         (split; [reflexivity | intros s' Hs'; discriminate Hs'])
       | intros [_ H]; try (exfalso; apply (H s); reflexivity); eauto
       | intros e H; try discriminate H; injection H as <-; reflexivity ]).
Qed.

Lemma api_key_raises_iff_provider_not_str_witness :
  exists e,
    Config.api_key groq_runtime numeric_provider_config = Raise e /\
    exc_type e = AttributeError.
Proof.
  destruct (api_key_raises_iff_provider_not_str groq_runtime
              numeric_provider_config) as [[_ Hraise] Htype].
  destruct Hraise as [e He].
  - split; [reflexivity |]. intros s Hs. discriminate Hs.
  - exists e. split; [exact He | apply Htype, He].
Defined.

(** ** Provider chat methods: errors *)

Lemma reraise_first_item {R} prefix (sdk : Result R) items :
  first_or_wrapped prefix sdk items
    (reraise prefix (bind sdk (fun response => first_item (items response)))).
Proof.
  destruct sdk as [r | cause]; cbn [bind].
  - destruct (items r) as [| answer rest] eqn:E; cbn.
    + split; [reflexivity |]. exists index_error. split; [reflexivity |].
      right. split; [eauto | reflexivity].
    + eauto.
  - cbn. split; [reflexivity |]. exists cause. split; [reflexivity |].
    left. reflexivity.
Qed.

(** X8. The [chat] methods of the OpenAI, Anthropic, Cohere and Groq
    providers return the first completion of the SDK's reply (Cohere:
    its text) and turn every failure into a plain [Exception] whose
    message is the vendor prefix followed by the original message. A
    reply without any completion is such a failure: it surfaces as
    [<vendor> API error: list index out of range]. *)
Theorem chat_wraps_every_failure :
  forall (self : AIProvider.t) (msgs : list Message),
    (forall create,
        first_or_wrapped "OpenAI API error: "
          (create (OpenAIProvider.request self msgs)) choices
          (OpenAIProvider.chat create self msgs)) /\
    (forall create,
        first_or_wrapped "Groq API error: "
          (create (GroqProvider.request self msgs)) choices
          (GroqProvider.chat create self msgs)) /\
    (forall create,
        first_or_wrapped "Anthropic API error: "
          (create (AnthropicProvider.request self msgs))
          AnthropicProvider.content_texts
          (AnthropicProvider.chat create self msgs)) /\
    (forall client_chat,
        first_or_wrapped "Cohere API error: "
          (client_chat (CohereProvider.request self msgs))
          (fun reply => [CohereProvider.text reply])
          (CohereProvider.chat client_chat self msgs)) /\
    GroqProvider.chat no_choices self msgs
      = Raise {| exc_type := PlainException;
                 exc_msg := "Groq API error: list index out of range" |}.
Proof.
  intros self msgs. repeat split.
  - intros create. apply reraise_first_item.
  - intros create. apply reraise_first_item.
  - intros create. apply reraise_first_item.
  - intros client_chat.
    apply (reraise_first_item "Cohere API error: "
             (client_chat (CohereProvider.request self msgs))
             (fun reply => [CohereProvider.text reply])).
Qed.

(** ** Provider construction *)

Lemma AIProvider_init_binds rt config base :
  AIProvider.__init__ rt config = Ok base ->
  AIProvider.config base = config /\
  Config.api_key rt config = Ok (AIProvider.api_key base) /\
  AIProvider.model base = Config.model config /\
  Config.temperature rt config = Ok (AIProvider.temperature base) /\
  Config.max_tokens rt config = Ok (AIProvider.max_tokens base).
Proof.
  unfold AIProvider.__init__. intros H.
  destruct (Config.api_key rt config) as [k |]; [| discriminate H].
  destruct (Config.temperature rt config) as [t |]; [| discriminate H].
  destruct (Config.max_tokens rt config) as [m |]; [| discriminate H].
  injection H as <-. repeat split.
Qed.

Lemma import_sdk_inv rt pkg msg p q :
  import_sdk rt pkg msg p = Ok q -> q = p /\ importable rt pkg = true.
Proof.
  unfold import_sdk. destruct (importable rt pkg); [| discriminate].
  intros H. injection H as <-. split; reflexivity.
Qed.

(** The constructor the registry holds for a name, written out. *)
Lemma registered_constructor name ctor :
  ProviderFactory.dict_get ProviderFactory.PROVIDERS name = Some ctor ->
  (name = "openai" /\ ctor = OpenAIProvider.__init__) \/
  (name = "anthropic" /\ ctor = AnthropicProvider.__init__) \/
  (name = "cohere" /\ ctor = CohereProvider.__init__) \/
  (name = "ollama" /\ ctor = OllamaProvider.__init__) \/
  (name = "groq" /\ ctor = GroqProvider.__init__).
Proof.
  unfold ProviderFactory.PROVIDERS. cbn [ProviderFactory.dict_get].
  repeat match goal with
         | |- context [String.eqb ?k name] =>
             destruct (String.eqb_spec k name) as [E | E];
             [ intros H; injection H as <-; subst name; tauto | clear E ]
         end.
  discriminate.
Qed.

Lemma constructed_provider rt config provider ctor name :
  (name = "openai" /\ ctor = OpenAIProvider.__init__) \/
  (name = "anthropic" /\ ctor = AnthropicProvider.__init__) \/
  (name = "cohere" /\ ctor = CohereProvider.__init__) \/
  (name = "ollama" /\ ctor = OllamaProvider.__init__) \/
  (name = "groq" /\ ctor = GroqProvider.__init__) ->
  ctor rt config = Ok provider ->
  AIProvider.__init__ rt config = Ok (Provider_base provider) /\
  Provider_name provider = name /\
  (forall pkg, sdk_package name = Some pkg -> importable rt pkg = true) /\
  (forall self base_url,
      provider = Ollama self base_url ->
      base_url = Config.get config "ollama_url" (JStr "http://localhost:11434")).
Proof.
  intros Hreg H.
  destruct Hreg as [[-> ->] | [[-> ->] | [[-> ->] | [[-> ->] | [-> ->]]]]];
    unfold OpenAIProvider.__init__, AnthropicProvider.__init__,
      CohereProvider.__init__, OllamaProvider.__init__, GroqProvider.__init__
      in H;
    destruct (AIProvider.__init__ rt config) as [base |];
    try discriminate H; cbn [bind] in H;
    try (apply import_sdk_inv in H; destruct H as [-> Himp]);
    try (injection H as <-);
    (split; [reflexivity |]); (split; [reflexivity |]); split;
    try (intros pkg Hpkg; injection Hpkg as <-; exact Himp);
    try (intros pkg Hpkg; discriminate Hpkg);
    try (intros self base_url Hp; discriminate Hp).
  intros self base_url Hp. injection Hp as _ <-. reflexivity.
Qed.

(** X9. A provider that [create_provider] returns is an instance of the
    class registered under the lower-cased configured name, and its
    bound attributes are the configuration's: the configuration itself,
    the resolved API key, the model, and the temperature and max-token
    values as [float] and [int] converted them. An Ollama provider also
    holds the configured server URL, [http://localhost:11434] when none
    is configured. *)
Theorem create_provider_binds_configuration :
  forall (rt : Runtime) (config : Config.t) (provider : Provider),
    ProviderFactory.create_provider rt config = Ok provider ->
    let base := Provider_base provider in
    (exists name,
        Config.api_provider config = JStr name /\
        Provider_name provider = lower name) /\
    AIProvider.config base = config /\
    Config.api_key rt config = Ok (AIProvider.api_key base) /\
    AIProvider.model base = Config.model config /\
    Config.temperature rt config = Ok (AIProvider.temperature base) /\
    Config.max_tokens rt config = Ok (AIProvider.max_tokens base) /\
    (forall self base_url,
        provider = Ollama self base_url ->
        base_url = Config.get config "ollama_url" (JStr "http://localhost:11434")).
Proof.
  intros rt config provider H base. subst base.
  unfold ProviderFactory.create_provider in H.
  destruct (Config.api_provider config) as [| | | | name | |] eqn:Hp;
    try discriminate H.
  cbn [ProviderFactory.str_lower bind] in H.
  destruct (ProviderFactory.dict_get ProviderFactory.PROVIDERS (lower name))
    as [ctor |] eqn:Hget; [| discriminate H].
  destruct (constructed_provider rt config provider ctor (lower name)
              (registered_constructor _ _ Hget) H)
    as (Hbase & Hname & _ & Hurl).
  destruct (AIProvider_init_binds _ _ _ Hbase) as (H1 & H2 & H3 & H4 & H5).
  split; [exists name; split; [reflexivity | exact Hname] |].
  repeat split; assumption.
Qed.

Lemma create_provider_binds_configuration_witness :
  exists provider,
    ProviderFactory.create_provider groq_runtime ollama_config = Ok provider /\
    Provider_name provider = "ollama" /\
    AIProvider.model (Provider_base provider) = JStr "llama3".
Proof.
  eexists. split; [reflexivity |].
  destruct (create_provider_binds_configuration groq_runtime ollama_config _
              eq_refl) as ((name & Hn & Hclass) & _ & _ & Hmodel & _).
  split; [reflexivity | exact Hmodel].
Defined.



(** ** Validation and start-up *)

Lemma api_key_falsy_means_str_provider rt self key :
  Config.api_key rt self = Ok key -> truthy key = false ->
  exists name, Config.api_provider self = JStr name.
Proof.
  unfold Config.api_key. intros H Hfalsy.
  destruct (truthy (Config.get self "api_key" (JStr ""))) eqn:Hk; cbn [negb] in H.
  - injection H as <-. congruence.
  - destruct (Config.api_provider self); try discriminate H. eauto.
Qed.

(** X11. When [Config.validate] returns, its list holds at most three
    issues, in the order missing key, temperature, max tokens. The key
    is reported exactly when the resolved key is empty, and the provider
    named in that report is then a string; an integer temperature is
    reported exactly when it is below 0 or above 2, a float one exactly
    when it compares below 0.0 or above 2.0, so that NaN is not
    reported; an integer max-token value is reported exactly when it is
    below 1. *)
Theorem validate_reports_in_fixed_order :
  forall (rt : Runtime) (self : Config.t) (issues : list Issue),
    Config_validate rt self = Ok issues ->
    exists (no_key out_of_range too_low : bool),
      issues =
        (if no_key then [NoApiKeyFound (Config.api_provider self)] else [])
        ++ (if out_of_range then [TemperatureOutOfRange] else [])
        ++ (if too_low then [MaxTokensTooLow] else []) /\
      (exists key,
          Config.api_key rt self = Ok key /\ no_key = negb (truthy key)) /\
      (no_key = true -> exists name, Config.api_provider self = JStr name) /\
      (forall t, Config.temperature rt self = Ok (JInt t) ->
                 out_of_range = ((t <? 0) || (2 <? t))%Z) /\
      (forall f, Config.temperature rt self = Ok (JFloat f) ->
                 out_of_range = SFltb f (float_of_literal 0)
                                || SFltb (float_of_literal 2) f) /\
      (Config.temperature rt self = Ok (JFloat S754_nan) ->
       out_of_range = false) /\
      (forall m, Config.max_tokens rt self = Ok (JInt m) ->
                 too_low = (m <? 1)%Z).
Proof.
  intros rt self issues H. unfold Config_validate in H.
  destruct (Config.api_key rt self) as [key |] eqn:Hk; [| discriminate H].
  cbn [bind] in H.
  destruct (Config.temperature rt self) as [t |] eqn:Ht; [| discriminate H].
  cbn [bind] in H.
  destruct (py_lt_literal t 0) as [below |] eqn:Hb; [| discriminate H].
  cbn [bind] in H.
  assert (Hout : exists outside,
             (if below then Ok true else py_gt_literal t 2) = Ok outside /\
             (forall z, t = JInt z -> outside = ((z <? 0) || (2 <? z))%Z) /\
             (forall f, t = JFloat f ->
                        outside = SFltb f (float_of_literal 0)
                                  || SFltb (float_of_literal 2) f)).
  { destruct t; try discriminate Hb; unfold py_lt_literal in Hb;
      injection Hb as <-.
    - destruct (Z.b2z b <? 0)%Z; cbn; eexists;
        (split; [reflexivity | split; intros ? Heq; discriminate Heq]).
    - exists ((z <? 0) || (2 <? z))%Z. split.
      + destruct (z <? 0)%Z; reflexivity.
      + split; intros ? Heq; [injection Heq as <-; reflexivity | discriminate Heq].
    - change (float_of_literal 0) with (S754_zero false).
      exists (SFltb f (S754_zero false) || SFltb (float_of_literal 2) f).
      split.
      + destruct (SFltb f (S754_zero false)); reflexivity.
      + split; intros ? Heq; [discriminate Heq | injection Heq as <-; reflexivity]. }
  destruct Hout as (outside & Hout & Hint & Hfloat).
  rewrite Hout in H. cbn [bind] in H.
  destruct (Config.max_tokens rt self) as [m |] eqn:Hm; [| discriminate H].
  cbn [bind] in H.
  destruct (py_lt_literal m 1) as [low |] eqn:Hl; [| discriminate H].
  cbn [bind] in H. injection H as <-.
  exists (negb (truthy key)), outside, low.
  split; [destruct (truthy key), outside, low; reflexivity |].
  split; [eauto |].
  split.
  { intros Hno. apply (api_key_falsy_means_str_provider rt self key Hk).
    destruct (truthy key); [discriminate Hno | reflexivity]. }
  split; [intros z Hz; injection Hz as ->; apply Hint; reflexivity |].
  split; [intros f Hf; injection Hf as ->; apply Hfloat; reflexivity |].
  split.
  { intros Hnan. injection Hnan as ->.
    rewrite (Hfloat S754_nan eq_refl). reflexivity. }
  intros z Hz. injection Hz as ->. cbn in Hl. injection Hl as <-. reflexivity.
Qed.

Lemma validate_reports_in_fixed_order_witness :
  exists no_key out_of_range too_low : bool,
    Config_validate groq_runtime new_model_config =
      Ok ((if no_key
           then [NoApiKeyFound (Config.api_provider new_model_config)] else [])
          ++ (if out_of_range then [TemperatureOutOfRange] else [])
          ++ (if too_low then [MaxTokensTooLow] else [])) /\
    out_of_range = false /\
    too_low = false.
Proof.
  destruct (validate_reports_in_fixed_order groq_runtime new_model_config []
              eq_refl)
    as (a & b & c & Hissues & _ & _ & _ & _ & Hnan & Hlow).
  exists a, b, c. split; [rewrite <- Hissues; reflexivity |].
  split; [apply Hnan; reflexivity | apply (Hlow 150%Z); reflexivity].
Defined.

(** X12. [setup_provider] lets the session start only when nothing at
    all is reported: the provider is in place exactly when
    [create_provider] returned it, [Config.validate] returned no issue
    and the provider's own [validate_config] returned none either; in
    every other case the process exits with status 1. In particular a
    Groq model name outside the provider's list, which
    [validate_config] words as a note, stops the start-up. *)
Theorem setup_provider_starts_only_without_issues :
  forall (rt : Runtime) (reachable : bool) (config : Config.t),
    (forall provider,
        ChatBot_setup_provider rt reachable config = Ready provider <->
        ProviderFactory.create_provider rt config = Ok provider /\
        Config_validate rt config = Ok [] /\
        Provider_validate_config reachable provider = []) /\
    (forall code report,
        ChatBot_setup_provider rt reachable config = Exit code report ->
        code = 1%Z) /\
    (forall self,
        ProviderFactory.create_provider rt config = Ok (Groq self) ->
        model_in (AIProvider.model self) groq_models = false ->
        exists report,
          ChatBot_setup_provider rt reachable config = Exit 1 report).
Proof.
  intros rt reachable config. unfold ChatBot_setup_provider.
  destruct (ProviderFactory.create_provider rt config) as [p |] eqn:Hc;
    cbn [bind].
  - destruct (Config_validate rt config) as [ci |] eqn:Hv; cbn [bind].
    + destruct (ci ++ Provider_validate_config reachable p) as [| i l] eqn:Ha.
      * apply app_eq_nil in Ha. destruct Ha as [-> Hp].
        split; [| split].
        -- intros provider. split.
           ++ intros H. injection H as <-. auto.
           ++ intros (H & _ & _). injection H as <-. reflexivity.
        -- intros code report H. discriminate H.
        -- intros self Hs Hm. injection Hs as ->. exfalso.
           cbn [Provider_validate_config] in Hp.
           unfold GroqProvider_validate_config in Hp. rewrite Hm in Hp.
           cbn [negb] in Hp.
           destruct (negb (truthy (AIProvider.api_key self))); discriminate Hp.
      * split; [| split].
        -- intros provider. split; [intros H; discriminate H |].
           intros (H & Hci & Hp). injection H as <-. injection Hci as ->.
           rewrite Hp in Ha. discriminate Ha.
        -- intros code report H. injection H as <- _. reflexivity.
        -- intros self _ _. eauto.
    + split; [| split].
      * intros provider. split; [intros H; discriminate H |].
        intros (_ & H & _). discriminate H.
      * intros code report H. injection H as <- _. reflexivity.
      * intros self _ _. eauto.
  - split; [| split].
    + intros provider. split; [intros H; discriminate H |].
      intros (H & _). discriminate H.
    + intros code report H. injection H as <- _. reflexivity.
    + intros self H. discriminate H.
Qed.

Lemma setup_provider_starts_only_without_issues_witness :
  exists report,
    ChatBot_setup_provider groq_runtime true new_model_config = Exit 1 report.
Proof.
  destruct (setup_provider_starts_only_without_issues groq_runtime true
              new_model_config) as (_ & _ & Hgroq).
  eapply Hgroq; reflexivity.
Defined.

(** ** Chat turns *)

Lemma process_chat_message_calls_once provider_chat self user_input :
  let outcome := ChatBot.process_chat_message provider_chat self user_input in
  snd outcome = true /\
  provider_calls (snd (fst outcome))
    = [ChatBot.get_messages_for_api self ++ [user_message user_input]].
Proof.
  unfold ChatBot.process_chat_message.
  fold (user_message user_input). rewrite request_of_turn.
  destruct (provider_chat _) as [response | e]; cbn.
  - destruct (truthy _); [destruct (ChatBot.total_len _) |]; cbn;
      split; reflexivity.
  - split; reflexivity.
Qed.

(** X13. A turn the provider answers stores the user's message and then
    the reply, shows that reply once, and has called the provider once,
    with the system message, the earlier history and the new user
    message. With token estimates switched on it then shows a quarter of
    the summed lengths of that request's contents (the reply is not
    counted); when one of those contents has no length, it shows the
    [TypeError] instead, after the reply, and the reply stays in the
    history. *)
Theorem answered_turn_stores_and_shows_reply :
  forall (provider_chat : list Message -> Result PyObject)
         (self : ChatBot.t) (user_input : string) (response : PyObject),
    let request :=
      ChatBot.get_messages_for_api self ++ [user_message user_input] in
    provider_chat request = Ok response ->
    let outcome := ChatBot.process_chat_message provider_chat self user_input in
    let self' := fst (fst outcome) in
    let trace := snd (fst outcome) in
    let estimating :=
      truthy (Config.get (ChatBot.config self) "settings.show_token_usage"
                (JBool false)) in
    snd outcome = true /\
    ChatBot.conversation_history self' =
      ChatBot.conversation_history self
        ++ [user_message user_input; assistant_message response] /\
    provider_calls trace = [request] /\
    replies_shown trace = [response] /\
    estimates_shown trace =
      (if estimating
       then match ChatBot.total_len request with
            | Ok total_chars => [total_chars / 4]
            | Raise _ => []
            end
       else []) /\
    errors_shown trace =
      (if estimating
       then match ChatBot.total_len request with
            | Ok _ => []
            | Raise e => [e]
            end
       else []).
Proof.
  intros provider_chat self user_input response request Hok outcome self' trace
    estimating.
  subst outcome self' trace estimating.
  unfold ChatBot.process_chat_message.
  fold (user_message user_input). rewrite request_of_turn.
  fold request. rewrite Hok. cbn [ChatBot.config ChatBot.set_history].
  fold (assistant_message response).
  assert (Hh : (ChatBot.conversation_history self ++ [user_message user_input])
                 ++ [assistant_message response]
               = ChatBot.conversation_history self
                   ++ [user_message user_input; assistant_message response])
    by (rewrite <- app_assoc; reflexivity).
  destruct (truthy _); [destruct (ChatBot.total_len request) |]; cbn;
    rewrite Hh; repeat split.
Qed.

Lemma answered_turn_stores_and_shows_reply_witness :
  exists e,
    errors_shown
      (snd (fst (ChatBot.process_chat_message hello_provider null_reply_bot "more")))
      = [e] /\
    exc_type e = TypeError /\
    ChatBot.conversation_history
      (fst (fst (ChatBot.process_chat_message hello_provider null_reply_bot "more")))
      = [ user_message "hi"; assistant_message JNull;
          user_message "more"; assistant_message (JStr "hello") ].
Proof.
  destruct (answered_turn_stores_and_shows_reply hello_provider null_reply_bot
              "more" (JStr "hello") eq_refl)
    as (_ & Hhist & _ & _ & _ & Herr).
  eexists. split; [exact Herr |]. split; [reflexivity | exact Hhist].
Defined.

(** ** The command dispatcher *)

Lemma save_conversation_shows w self :
  turn_events (ChatBot_save_conversation w self) = [] /\
  appended (ChatBot_save_conversation w self) =
    match ChatBot.conversation_history self, file_append w with
    | _ :: _, Ok _ =>
        [map (fun msg => (title (role msg), content msg))
           (ChatBot.conversation_history self)]
    | _, _ => []
    end.
Proof.
  unfold ChatBot_save_conversation.
  destruct (ChatBot.conversation_history self); [split; reflexivity |].
  destruct (file_append w); split; reflexivity.
Qed.

Lemma print_config_shows rt self shown :
  ChatBot_print_config rt self = Ok shown ->
  turn_events shown = [] /\ appended shown = [].
Proof.
  unfold ChatBot_print_config. intros H.
  destruct (Config.temperature rt _); [| discriminate H].
  destruct (Config.max_tokens rt _); [| discriminate H].
  destruct (py_head 100 _); [| discriminate H].
  injection H as <-. split; reflexivity.
Qed.

Lemma show_history_shows self shown :
  ChatBot_show_history self = Ok shown ->
  turn_events shown = [] /\ appended shown = [].
Proof.
  unfold ChatBot_show_history. intros H.
  destruct (ChatBot.conversation_history self) as [| m h].
  - injection H as <-. split; reflexivity.
  - destruct (history_entries (m :: h)); [| discriminate H].
    injection H as <-. split; reflexivity.
Qed.

Lemma turn_events_map trace : turn_events (map FromTurn trace) = trace.
Proof.
  induction trace as [| ev trace IH]; [reflexivity |].
  cbn. unfold turn_events in IH. rewrite IH. reflexivity.
Qed.


Lemma process_chat_message_history provider_chat self user_input :
  ChatBot.conversation_history
    (fst (fst (ChatBot.process_chat_message provider_chat self user_input)))
  = ChatBot.conversation_history self
      ++ user_message user_input
         :: match provider_chat
                    (ChatBot.get_messages_for_api self
                       ++ [user_message user_input]) with
            | Ok response => [assistant_message response]
            | Raise _ => []
            end.
Proof.
  unfold ChatBot.process_chat_message.
  fold (user_message user_input). rewrite request_of_turn.
  destruct (provider_chat _) as [response | e]; cbn.
  - fold (assistant_message response).
    destruct (truthy _); [destruct (ChatBot.total_len _) |]; cbn;
      rewrite <- app_assoc; reflexivity.
  - reflexivity.
Qed.

Lemma turn_events_app a b : turn_events (a ++ b) = turn_events a ++ turn_events b.
Proof. apply flat_map_app. Qed.


Lemma save_on_exit_shows w self :
  turn_events (save_on_exit w self) = [] /\
  appended (save_on_exit w self) =
    if truthy (Config.get (ChatBot.config self) "settings.save_conversation"
                 (JBool true))
    then appended (ChatBot_save_conversation w self) else [].
Proof.
  unfold save_on_exit.
  destruct (truthy _); cbn [andb]; [| split; reflexivity].
  destruct (ChatBot.conversation_history self) eqn:Eh; cbn.
  - unfold ChatBot_save_conversation. rewrite Eh. split; reflexivity.
  - split; [apply save_conversation_shows | reflexivity].
Qed.

(** The eight-way case analysis of [handle_user_input], on a call that
    returned, for the stripped line [ui] and its lower-cased form
    [cmd]. *)
Ltac dispatch H ui cmd :=
  change (existsb (String.eqb cmd) ["quit"; "exit"; "bye"])
    with (is_quit cmd) in H;
  destruct (is_quit cmd) eqn:Equit;
  [ | destruct (String.eqb cmd "clear") eqn:Eclear;
      [ | destruct (String.eqb cmd "help") eqn:Ehelp;
          [ | destruct (String.eqb cmd "config") eqn:Econfig;
              [ | destruct (String.eqb cmd "history") eqn:Ehistory;
                  [ | destruct (String.eqb cmd "save") eqn:Esave;
                      [ | destruct (String.eqb ui "") eqn:Eblank ] ] ] ] ] ].

(** X14. [handle_user_input] tells the loop to stop exactly for the
    lines that, stripped of surrounding white space and lower-cased, are
    [quit], [exit] or [bye]; every other line it returns from keeps the
    session going. *)
Theorem handle_user_input_stops_only_on_quit :
  forall (rt : Runtime) (w : World) (self self' : ChatBot.t)
         (user_input : string) (shown : list Shown) (continue : bool),
    ChatBot_handle_user_input rt w self user_input
      = Ok (self', shown, continue) ->
    (continue = false <->
     In (lower (strip user_input)) ["quit"; "exit"; "bye"]).
Proof.
  intros rt w self self' user_input shown continue H.
  assert (Hq : is_quit (lower (strip user_input)) = true <->
               In (lower (strip user_input)) ["quit"; "exit"; "bye"]).
  { unfold is_quit. rewrite existsb_exists. split.
    - intros (x & Hin & Hx). apply String.eqb_eq in Hx. rewrite Hx. exact Hin.
    - intros Hin. eexists. split; [exact Hin | apply String.eqb_refl]. }
  unfold ChatBot_handle_user_input in H. cbv zeta in H.
  set (ui := strip user_input) in *. set (cmd := lower ui) in *.
  dispatch H ui cmd; rewrite <- Hq.
  - injection H as _ _ <-. split; reflexivity.
  - destruct (ChatBot.clear_history self). injection H as _ _ <-.
    split; discriminate.
  - injection H as _ _ <-. split; discriminate.
  - destruct (ChatBot_print_config rt self); [| discriminate H].
    injection H as _ _ <-. split; discriminate.
  - destruct (ChatBot_show_history self); [| discriminate H].
    injection H as _ _ <-. split; discriminate.
  - injection H as _ _ <-. split; discriminate.
  - injection H as _ _ <-. split; discriminate.
  - pose proof (process_chat_message_calls_once (provider_chat w) self ui)
      as [Hc _].
    destruct (ChatBot.process_chat_message (provider_chat w) self ui)
      as [[s t] c].
    cbn [snd] in Hc. injection H as _ _ <-. rewrite Hc. split; discriminate.
Qed.

Lemma handle_user_input_stops_only_on_quit_witness :
  (false = false <-> In (lower (strip "  Quit ")) ["quit"; "exit"; "bye"]).
Proof.
  eapply (handle_user_input_stops_only_on_quit groq_runtime hello_world
            one_turn_bot).
  reflexivity.
Defined.

(** X15. What [handle_user_input] does to the session, when it returns:
    the configuration never changes; [clear] empties the history; a
    line that is neither blank nor a command is stored stripped, with
    its letter case kept, followed by the reply if the provider gave
    one; every other line leaves the history as it is. The provider is
    called once for such a line, with the request assembled from the
    stripped text, and never for a command or a blank line. *)
Theorem handle_user_input_effect :
  forall (rt : Runtime) (w : World) (self self' : ChatBot.t)
         (user_input : string) (shown : list Shown) (continue : bool),
    ChatBot_handle_user_input rt w self user_input
      = Ok (self', shown, continue) ->
    let text := strip user_input in
    let request := ChatBot.get_messages_for_api self ++ [user_message text] in
    ChatBot.config self' = ChatBot.config self /\
    (if is_chat_line user_input then
       chat_calls shown = [request] /\
       exists tail,
         ChatBot.conversation_history self' =
           ChatBot.conversation_history self ++ user_message text :: tail /\
         match provider_chat w request with
         | Ok response => tail = [assistant_message response]
         | Raise _ => tail = []
         end
     else
       chat_calls shown = [] /\
       ChatBot.conversation_history self' =
         if String.eqb (lower text) "clear" then []
         else ChatBot.conversation_history self).
Proof.
  intros rt w self self' user_input shown continue H text request.
  unfold is_chat_line, is_command. subst text.
  unfold ChatBot_handle_user_input in H. cbv zeta in H.
  set (ui := strip user_input) in *. set (cmd := lower ui) in *.
  dispatch H ui cmd;
    rewrite ?Equit, ?Eclear, ?Ehelp, ?Econfig, ?Ehistory, ?Esave, ?Eblank;
    cbn [orb andb negb].
  - assert (Hc : String.eqb cmd "clear" = false).
    { unfold is_quit in Equit. cbn [existsb] in Equit.
      destruct (String.eqb_spec cmd "clear") as [E | E]; [| reflexivity].
      rewrite E in Equit. discriminate Equit. }
    rewrite Hc. injection H as <- <- _.
    split; [reflexivity |]. split; [| reflexivity].
    unfold chat_calls. rewrite turn_events_app.
    rewrite (proj1 (save_on_exit_shows w self)). reflexivity.
  - injection H as <- <- _. repeat split.
  - injection H as <- <- _. repeat split.
  - destruct (ChatBot_print_config rt self) as [out |] eqn:E;
      [| discriminate H].
    injection H as <- <- _. apply print_config_shows in E.
    unfold chat_calls. rewrite (proj1 E). repeat split.
  - destruct (ChatBot_show_history self) as [out |] eqn:E;
      [| discriminate H].
    injection H as <- <- _. apply show_history_shows in E.
    unfold chat_calls. rewrite (proj1 E). repeat split.
  - injection H as <- <- _. unfold chat_calls.
    rewrite (proj1 (save_conversation_shows w self)). repeat split.
  - injection H as <- <- _. repeat split.
  - pose proof (process_chat_message_calls_once (provider_chat w) self ui)
      as [_ Hcalls].
    pose proof (process_chat_message_state (provider_chat w) self ui)
      as (Hcfg & _).
    pose proof (process_chat_message_history (provider_chat w) self ui)
      as Hhist.
    destruct (ChatBot.process_chat_message (provider_chat w) self ui)
      as [[s t] c] eqn:Ep.
    cbn [fst snd] in *. injection H as <- <- _.
    split; [exact Hcfg |]. unfold chat_calls. rewrite turn_events_map.
    split; [exact Hcalls |].
    fold request in Hhist. eexists. split; [exact Hhist |].
    destruct (provider_chat w request); reflexivity.
Qed.

Lemma handle_user_input_effect_witness :
  exists self' shown,
    ChatBot_handle_user_input groq_runtime offline_world one_turn_bot "  Again  "
      = Ok (self', shown, true) /\
    ChatBot.conversation_history self'
      = ChatBot.conversation_history one_turn_bot ++ [user_message "Again"].
Proof.
  eexists. eexists. split; [reflexivity |].
  destruct (handle_user_input_effect groq_runtime offline_world one_turn_bot _
              "  Again  " _ _ eq_refl) as (_ & _ & tail & Hh & Ht).
  cbn in Ht. subst tail. exact Hh.
Defined.




(** ** show_history *)

Lemma length_append (a b : string) :
  String.length (a +:+ b) = String.length a + String.length b.
Proof.
  induction a as [| c a IH]; [reflexivity |].
  change (S (String.length (a +:+ b)) = S (String.length a + String.length b)).
  rewrite IH. reflexivity.
Qed.

Lemma length_substring_le n : forall s,
  String.length (String.substring 0 n s) <= n.
Proof.
  induction n as [| n IH]; intros s.
  - destruct s; cbn; lia.
  - destruct s as [| c s]; cbn; [lia |]. specialize (IH s). lia.
Qed.

Lemma preview_str s : preview (JStr s) = Ok (JStr (clip s)).
Proof.
  unfold preview, clip. cbn [py_len bind].
  destruct (Nat.ltb 100 (String.length s)); reflexivity.
Qed.

Lemma preview_raises_type_error c e :
  preview c = Raise e -> exc_type e = TypeError.
Proof.
  unfold preview. destruct c; cbn [py_len bind]; intros H;
    try (injection H as <-; reflexivity);
    destruct (Nat.ltb 100 _); cbn in H;
    try discriminate H; injection H as <-; reflexivity.
Qed.

Lemma preview_scalar c :
  is_scalar c = true -> exists e, preview c = Raise e.
Proof. destruct c; try discriminate; intros _; eexists; reflexivity. Qed.

Lemma history_entries_strings h :
  (forall m, In m h -> exists s, content m = JStr s) ->
  exists entries, history_entries h = Ok entries.
Proof.
  induction h as [| m h IH]; intros Hall; [eexists; reflexivity |].
  cbn [history_entries].
  destruct (Hall m (or_introl eq_refl)) as [s ->].
  rewrite preview_str. cbn [bind].
  destruct IH as [entries ->]; [intros m' Hm'; apply Hall; right; exact Hm' |].
  eexists. reflexivity.
Qed.

Lemma history_entries_scalar h m :
  In m h -> is_scalar (content m) = true ->
  exists e, history_entries h = Raise e /\ exc_type e = TypeError.
Proof.
  induction h as [| m0 h IH]; intros Hin Hs; [destruct Hin |].
  cbn [history_entries].
  destruct (preview (content m0)) as [c |] eqn:Ep; cbn [bind].
  - destruct Hin as [-> | Hin].
    + destruct (preview_scalar _ Hs) as [e He]. congruence.
    + destruct (IH Hin Hs) as (e & -> & He). cbn [bind]. eauto.
  - eexists. split; [reflexivity |]. apply (preview_raises_type_error _ _ Ep).
Qed.

Lemma handle_history_command rt w self user_input :
  lower (strip user_input) = "history" ->
  ChatBot_handle_user_input rt w self user_input =
    bind (ChatBot_show_history self) (fun shown => Ok (self, shown, true)).
Proof.
  intros H. unfold ChatBot_handle_user_input. cbv zeta. rewrite H. reflexivity.
Qed.

(** X17. The [history] command shows each message under its title-cased
    role with its text cut to 100 characters plus [...] when it is
    longer, so never more than 103 characters, and unchanged when it has
    at most 100. It works whenever every stored content is a string. A
    stored content without a length, such as a reply that was null,
    makes the command raise a [TypeError] that [handle_user_input] does
    not catch. *)
Theorem history_command_clips_or_raises :
  (forall s,
      preview (JStr s) = Ok (JStr (clip s)) /\
      String.length (clip s) <= 103 /\
      (String.length s <= 100 -> clip s = s) /\
      (100 < String.length s -> clip s = String.substring 0 100 s +:+ "...")) /\
  (forall rt w self user_input,
      lower (strip user_input) = "history" ->
      (forall m, In m (ChatBot.conversation_history self) ->
                 exists s, content m = JStr s) ->
      exists shown,
        ChatBot_handle_user_input rt w self user_input = Ok (self, shown, true)) /\
  (forall rt w self user_input m,
      lower (strip user_input) = "history" ->
      In m (ChatBot.conversation_history self) ->
      is_scalar (content m) = true ->
      exists e,
        ChatBot_handle_user_input rt w self user_input = Raise e /\
        exc_type e = TypeError).
Proof.
  split; [| split].
  - intros s. split; [apply preview_str |]. unfold clip.
    destruct (Nat.ltb_spec 100 (String.length s)) as [Hlong | Hshort].
    + split; [| split].
      * rewrite length_append.
        pose proof (length_substring_le 100 s). cbn [String.length]. lia.
      * intros Hle. lia.
      * reflexivity.
    + split; [lia | split; [reflexivity | intros Hlt; lia]].
  - intros rt w self user_input Hcmd Hall.
    rewrite (handle_history_command _ _ _ _ Hcmd). unfold ChatBot_show_history.
    destruct (ChatBot.conversation_history self) as [| m h] eqn:Eh;
      [eexists; reflexivity |].
    destruct (history_entries_strings (m :: h) Hall) as [entries ->].
    eexists. reflexivity.
  - intros rt w self user_input m Hcmd Hin Hs.
    rewrite (handle_history_command _ _ _ _ Hcmd). unfold ChatBot_show_history.
    destruct (ChatBot.conversation_history self) as [| m0 h] eqn:Eh;
      [destruct Hin |].
    destruct (history_entries_scalar (m0 :: h) m Hin Hs) as (e & -> & He).
    exists e. split; [reflexivity | exact He].
Qed.

Lemma history_command_clips_or_raises_witness :
  (exists shown,
      ChatBot_handle_user_input groq_runtime hello_world one_turn_bot " History"
        = Ok (one_turn_bot, shown, true)) /\
  (exists e,
      ChatBot_handle_user_input groq_runtime hello_world null_reply_bot "history"
        = Raise e /\ exc_type e = TypeError).
Proof.
  destruct history_command_clips_or_raises as (_ & Hok & Hraise).
  split.
  - apply Hok; [reflexivity |].
    intros m [<- | [<- | []]]; eexists; reflexivity.
  - apply (Hraise groq_runtime hello_world null_reply_bot "history"
             (assistant_message JNull)).
    + reflexivity.
    + right. left. reflexivity.
    + reflexivity.
Defined.

(** ** The session loop *)





(** X19. How the loop of [run] goes on when more input arrives. Once it
    was left (by [quit], [exit], [bye], an interrupt or the end of the
    input) or an exception escaped it, further input changes nothing;
    while it is still waiting, the further input is handled from the
    state reached so far and what it shows comes after what was shown. *)
Theorem run_loop_continues_from_reached_state :
  forall (rt : Runtime) (inputs more : list Input) (self : ChatBot.t),
    run_loop rt self (inputs ++ more) =
      match run_loop rt self inputs with
      | Raise e => Raise e
      | Ok (self', shown, true) => Ok (self', shown, true)
      | Ok (self', shown, false) =>
          match run_loop rt self' more with
          | Raise e => Raise e
          | Ok (self'', shown', ended) => Ok (self'', shown ++ shown', ended)
          end
      end.
Proof.
  intros rt inputs more. induction inputs as [| i inputs IH]; intros self.
  - cbn [app run_loop]. destruct (run_loop rt self more) as [[[s sh] e] |];
      reflexivity.
  - destruct i as [line w | w | w]; cbn [app run_loop]; try reflexivity.
    destruct (ChatBot_handle_user_input rt w self line) as [[[s1 sh1] c1] |];
      [| reflexivity].
    destruct c1; [| reflexivity].
    rewrite IH.
    destruct (run_loop rt s1 inputs) as [[[s2 sh2] e2] |]; [| reflexivity].
    destruct e2; [reflexivity |].
    destruct (run_loop rt s2 more) as [[[s3 sh3] e3] |]; [| reflexivity].
    rewrite app_assoc. reflexivity.
Qed.

(** ** The Telegram bridge *)

Lemma ensure_entry_lookup (convs : gmap Z (list Message)) (user_id : Z) :
  match convs !! user_id with
  | None => <[user_id := []]> convs
  | Some _ => convs
  end !! user_id = Some (default [] (convs !! user_id)).
Proof.
  destruct (convs !! user_id) as [h |] eqn:E; cbn.
  - exact E.
  - apply lookup_insert_eq.
Qed.

Lemma ensure_entry_other (convs : gmap Z (list Message)) (user_id other : Z) :
  other <> user_id ->
  match convs !! user_id with
  | None => <[user_id := []]> convs
  | Some _ => convs
  end !! other = convs !! other.
Proof.
  intros Hne. destruct (convs !! user_id); [reflexivity |].
  apply lookup_insert_ne. congruence.
Qed.

Lemma append_lookup (convs : gmap Z (list Message)) (user_id : Z) msg h :
  convs !! user_id = Some h ->
  TelegramChatBot.append convs user_id msg !! user_id = Some (h ++ [msg]).
Proof.
  intros H. unfold TelegramChatBot.append. rewrite lookup_alter_eq, H.
  reflexivity.
Qed.

Lemma append_other (convs : gmap Z (list Message)) (user_id other : Z) msg :
  other <> user_id ->
  TelegramChatBot.append convs user_id msg !! other = convs !! other.
Proof.
  intros Hne. unfold TelegramChatBot.append. apply lookup_alter_ne. congruence.
Qed.

Lemma deliver_other config convs u other :
  other <> update_user u -> deliver config convs u !! other = convs !! other.
Proof.
  intros Hne.
  destruct u as [user_id | user_id | user_id text send_action chat reply_ok];
    cbn [deliver update_user] in *.
  - unfold TelegramChatBot.start_command. cbn [fst].
    apply ensure_entry_other, Hne.
  - unfold TelegramChatBot.clear_command. cbn [fst].
    destruct (convs !! user_id); [| reflexivity].
    apply lookup_insert_ne. congruence.
  - unfold TelegramChatBot.handle_message.
    destruct send_action as [[] | e]; cbn [fst];
      [| apply ensure_entry_other, Hne].
    destruct (chat _) as [response | e]; [destruct reply_ok |]; cbn [fst];
      rewrite ?append_other by exact Hne; apply ensure_entry_other, Hne.
Qed.

(** X20. The bridge keeps the users apart: an update from one user,
    whether [/start], [/clear] or a text message and however its
    outside calls end, leaves every other user's stored history exactly
    as it was (and creates none for them); so does any sequence of
    updates none of which comes from that user. *)
Theorem updates_touch_only_their_user :
  forall (config : Config.t) (other : Z),
    (forall convs u,
        other <> update_user u ->
        deliver config convs u !! other = convs !! other) /\
    (forall updates convs,
        Forall (fun u => other <> update_user u) updates ->
        fold_left (deliver config) updates convs !! other = convs !! other).
Proof.
  intros config other. split.
  - intros convs u Hne. apply deliver_other, Hne.
  - induction updates as [| u updates IH]; intros convs Hall; [reflexivity |].
    inversion Hall as [| ? ? Hu Hrest]; subst. cbn [fold_left].
    rewrite (IH _ Hrest). apply deliver_other, Hu.
Qed.

Lemma updates_touch_only_their_user_witness :
  fold_left (deliver groq_config)
    [ StartCommand 7; TextMessage 7 "hi" (Ok tt) hello_provider true;
      ClearCommand 7 ]
    {[ 8%Z := [user_message "mine"] ]} !! 8%Z
  = Some [user_message "mine"].
Proof.
  destruct (updates_touch_only_their_user groq_config 8%Z) as [_ Hseq].
  rewrite Hseq; [reflexivity |].
  repeat constructor; discriminate.
Defined.

Lemma handle_message_history config provider_chat reply_ok
    (convs : gmap Z (list Message)) (user_id : Z) text :
  fst (TelegramChatBot.handle_message config (Ok tt) provider_chat reply_ok
         convs user_id text) !! user_id
  = Some (default [] (convs !! user_id)
            ++ user_message text
               :: match provider_chat
                          (bridge_request config
                             (default [] (convs !! user_id)) text) with
                  | Ok response => [assistant_message response]
                  | Raise _ => []
                  end).
Proof.
  unfold TelegramChatBot.handle_message.
  pose proof (ensure_entry_lookup convs user_id) as H0.
  set (h := default [] (convs !! user_id)) in *.
  set (convs0 := match convs !! user_id with
                 | None => <[user_id := []]> convs
                 | Some _ => convs
                 end) in *.
  pose proof (append_lookup convs0 user_id
                {| role := "user"; content := JStr text |} h H0) as H1.
  rewrite H1. cbn [default].
  assert (Hreq : (if truthy (Config.bot_instructions config)
                  then [] ++ [{| role := "system";
                                 content := Config.bot_instructions config |}]
                  else [])
                 ++ id (h ++ [{| role := "user"; content := JStr text |}])
                 = bridge_request config h text) by reflexivity.
  rewrite Hreq.
  destruct (provider_chat (bridge_request config h text)) as [response | e].
  - pose proof (append_lookup _ user_id
                  {| role := "assistant"; content := response |} _ H1) as H2.
    rewrite <- app_assoc in H2. destruct reply_ok; exact H2.
  - exact H1.
Qed.


(** X22. After [/clear] a user's next text message is sent to the
    provider with the system message only: nothing said before the
    [/clear] is in the request, whether or not the bridge had a history
    for that user. *)
Theorem clear_command_forgets_history :
  forall (config : Config.t)
         (provider_chat : list Message -> Result PyObject) (reply_ok : bool)
         (convs : gmap Z (list Message)) (user_id : Z) (text : string),
    let cleared := fst (TelegramChatBot.clear_command convs user_id) in
    let outcome :=
      TelegramChatBot.handle_message config (Ok tt) provider_chat reply_ok
        cleared user_id text in
    default [] (cleared !! user_id) = [] /\
    fst outcome !! user_id =
      Some (user_message text
              :: match provider_chat (bridge_request config [] text) with
                 | Ok response => [assistant_message response]
                 | Raise _ => []
                 end).
Proof.
  intros config provider_chat reply_ok convs user_id text cleared outcome.
  assert (Hc : default [] (cleared !! user_id) = []).
  { subst cleared. unfold TelegramChatBot.clear_command. cbn [fst].
    destruct (convs !! user_id) eqn:E.
    - rewrite lookup_insert_eq. reflexivity.
    - rewrite E. reflexivity. }
  split; [exact Hc |].
  pose proof (handle_message_history config provider_chat reply_ok cleared
                user_id text) as H.
  rewrite Hc in H. exact H.
Qed.

(** ** White space and letter case of a line *)

Lemma rstrip_cons c s :
  rstrip (String c s) =
    match rstrip s with
    | EmptyString => if is_space c then EmptyString else String c EmptyString
    | r => String c r
    end.
Proof. reflexivity. Qed.

Lemma rstrip_idempotent s : rstrip (rstrip s) = rstrip s.
Proof.
  induction s as [| c s IH]; [reflexivity |].
  rewrite rstrip_cons. destruct (rstrip s) as [| c' r] eqn:E.
  - destruct (is_space c) eqn:Ec; [reflexivity |].
    rewrite rstrip_cons. cbn [rstrip]. rewrite Ec. reflexivity.
  - rewrite rstrip_cons, IH. reflexivity.
Qed.

(** Stripping on the right keeps a first character that is not white
    space, so there is nothing to strip on the left afterwards. *)
Lemma lstrip_rstrip_lstrip s : lstrip (rstrip (lstrip s)) = rstrip (lstrip s).
Proof.
  induction s as [| c s IH]; [reflexivity |].
  cbn [lstrip]. destruct (is_space c) eqn:Ec; [exact IH |].
  rewrite rstrip_cons. destruct (rstrip s) as [| c' r].
  - rewrite Ec. cbn [lstrip]. rewrite Ec. reflexivity.
  - cbn [lstrip]. rewrite Ec. reflexivity.
Qed.

Lemma strip_idempotent s : strip (strip s) = strip s.
Proof.
  unfold strip. rewrite lstrip_rstrip_lstrip. apply rstrip_idempotent.
Qed.

(** X23. White space around a line never matters to
    [handle_user_input]: the line and the stripped line are handled in
    the same way, and stripping twice strips nothing more. For a
    command, letter case does not matter either: two lines that agree
    once stripped and lower-cased on one of the eight command words are
    handled in the same way. *)
Theorem handle_user_input_ignores_space_and_command_case :
  forall (rt : Runtime) (w : World) (self : ChatBot.t),
    (forall line, strip (strip line) = strip line) /\
    (forall line,
        ChatBot_handle_user_input rt w self (strip line)
          = ChatBot_handle_user_input rt w self line) /\
    (forall line1 line2,
        lower (strip line1) = lower (strip line2) ->
        is_command (lower (strip line1)) = true ->
        ChatBot_handle_user_input rt w self line1
          = ChatBot_handle_user_input rt w self line2).
Proof.
  intros rt w self. split; [apply strip_idempotent |]. split.
  - intros line. unfold ChatBot_handle_user_input. cbv zeta.
    rewrite strip_idempotent. reflexivity.
  - intros line1 line2 Heq Hcmd.
    unfold ChatBot_handle_user_input. cbv zeta. rewrite <- Heq.
    unfold is_command, is_quit in Hcmd.
    set (cmd := lower (strip line1)) in *.
    destruct (existsb (String.eqb cmd) ["quit"; "exit"; "bye"]);
      [reflexivity |].
    destruct (String.eqb cmd "clear"); [reflexivity |].
    destruct (String.eqb cmd "help"); [reflexivity |].
    destruct (String.eqb cmd "config"); [reflexivity |].
    destruct (String.eqb cmd "history"); [reflexivity |].
    destruct (String.eqb cmd "save"); [reflexivity |].
    discriminate Hcmd.
Qed.

Lemma handle_user_input_ignores_space_and_command_case_witness :
  ChatBot_handle_user_input groq_runtime hello_world one_turn_bot "  CLEAR "
    = ChatBot_handle_user_input groq_runtime hello_world one_turn_bot "clear".
Proof.
  destruct (handle_user_input_ignores_space_and_command_case groq_runtime
              hello_world one_turn_bot) as (_ & _ & Hcase).
  apply Hcase; reflexivity.
Defined.

(** ** Assembled requests at the providers *)

(** X24. What the vendors receive for a turn of a session whose history
    holds no system message. The Anthropic request has the configured
    instruction as its [system] field (the empty string when the
    instruction is empty) and the history followed by the new user
    message as its turns. The Cohere request has the line just typed as
    its [message] and the history's assistant messages, relabelled
    [CHATBOT], as its [chat_history]: the instruction and the earlier
    user messages are not sent. *)
Theorem assembled_request_at_anthropic_and_cohere :
  forall (provider : AIProvider.t) (self : ChatBot.t) (text : string),
    no_role "system" (ChatBot.conversation_history self) ->
    let instruction := Config.bot_instructions (ChatBot.config self) in
    let request :=
      ChatBot.get_messages_for_api self ++ [user_message text] in
    AnthropicProvider.system (AnthropicProvider.request provider request)
      = (if truthy instruction then instruction else JStr "") /\
    AnthropicProvider.messages (AnthropicProvider.request provider request)
      = ChatBot.conversation_history self ++ [user_message text] /\
    CohereProvider.message (CohereProvider.request provider request)
      = JStr text /\
    CohereProvider.chat_history (CohereProvider.request provider request)
      = map chatbot_turn
          (List.filter (has_role "assistant")
             (ChatBot.conversation_history self)).
Proof.
  intros provider self text Hclean instruction request.
  assert (Hreq : request =
                   (if truthy instruction
                    then [system_message (ChatBot.config self)] else [])
                   ++ (ChatBot.conversation_history self ++ [user_message text])).
  { subst request. unfold ChatBot.get_messages_for_api. fold instruction.
    destruct (truthy instruction); cbn [app]; rewrite <- ?app_assoc;
      reflexivity. }
  assert (Hclean' : no_role "system"
                      (ChatBot.conversation_history self ++ [user_message text])).
  { apply Forall_app. split; [exact Hclean | repeat constructor]. }
  rewrite request_fields, cohere_request_fields.
  cbn [AnthropicProvider.system AnthropicProvider.messages
       CohereProvider.message CohereProvider.chat_history].
  rewrite anthropic_convert_turns, cohere_convert_history. cbn [app].
  repeat split.
  - rewrite Hreq. destruct (truthy instruction).
    + apply (anthropic_convert_last_system []
               (system_message (ChatBot.config self))); [reflexivity |].
      exact Hclean'.
    + apply anthropic_convert_keeps_system. exact Hclean'.
  - rewrite Hreq, List.filter_app.
    rewrite (filter_no_system _ Hclean').
    destruct (truthy instruction); reflexivity.
  - subst request.
    apply (cohere_convert_last_user (ChatBot.get_messages_for_api self)
             (user_message text) []); [reflexivity | constructor].
  - rewrite Hreq, !List.filter_app, !map_app.
    destruct (truthy instruction); cbn; rewrite app_nil_r; reflexivity.
Qed.

Lemma assembled_request_at_anthropic_and_cohere_witness :
  CohereProvider.message
    (CohereProvider.request sample_provider
       (ChatBot.get_messages_for_api one_turn_bot ++ [user_message "again"]))
    = JStr "again" /\
  AnthropicProvider.system
    (AnthropicProvider.request sample_provider
       (ChatBot.get_messages_for_api one_turn_bot ++ [user_message "again"]))
    = JStr "Be brief.".
Proof.
  destruct (assembled_request_at_anthropic_and_cohere sample_provider
              one_turn_bot "again") as (Hsys & _ & Hmsg & _).
  - repeat constructor.
  - split; [exact Hmsg | exact Hsys].
Defined.
